(** * Relay between a Twilio media stream and an ElevenLabs conversation

    A shallow embedding of [registerInboundRoutes] (inbound-calls.js): the
    per-connection closure variables [streamSid], [elevenLabsWs] and
    [isClosing], the handlers registered on the two WebSockets, and the
    translation between the two wire formats.  Two variants of the file
    exist: the one with [closeWithCode], the connection timeout and the
    closure codes ([Defensive]) and the one without them ([Lenient]).

    Handlers are functions from the session state to the new state and the
    list of effects they perform (socket calls, timers, console output).
    The network is the environment: it delivers events, in any order. *)

From Stdlib Require Import ZArith NArith Lia Ascii String List Bool DecimalString.
From stdpp Require Import base list strings.

Local Open Scope string_scope.
Set Warnings "-register-all".

(** ** JavaScript values, as [JSON.parse] produces them *)

Module Js.

(** Numbers are the integral ones (stream counters, event ids, closure
    codes); an object keeps its properties in insertion order. *)
Inductive JsVal : Type :=
| JUndefined
| JNull
| JBool (b : bool)
| JNum (n : Z)
| JStr (s : string)
| JArr (items : list JsVal)
| JObj (fields : list (string * JsVal)).

(** [!!v] of JavaScript: [undefined], [null], [false], [0] and the empty
    string are falsy, everything else (objects and arrays included) truthy. *)
Definition truthy (v : JsVal) : bool :=
  match v with
  | JUndefined | JNull => false
  | JBool b => b
  | JNum n => negb (n =? 0)%Z
  | JStr s => negb (String.eqb s "")
  | JArr _ | JObj _ => true
  end.

Definition nullish (v : JsVal) : bool :=
  match v with
  | JUndefined | JNull => true
  | _ => false
  end.

(** [typeof v === 'object'] ([null] included, as in JavaScript). *)
Definition typeof_object (v : JsVal) : bool :=
  match v with
  | JNull | JArr _ | JObj _ => true
  | _ => false
  end.

Fixpoint lookup_field (k : string) (fields : list (string * JsVal)) : JsVal :=
  match fields with
  | [] => JUndefined
  | (k', v) :: rest => if String.eqb k k' then v else lookup_field k rest
  end.

(** [v.k] for a [v] that is neither [null] nor [undefined] and one of the
    property names the handlers read ([event], [start], [streamSid],
    [media], [payload], [type], [audio_event], [audio_base_64],
    [ping_event], [event_id], [signed_url]): none of them is inherited from
    a prototype, so only an object's own properties answer. *)
Definition prop (v : JsVal) (k : string) : JsVal :=
  match v with
  | JObj fields => lookup_field k fields
  | _ => JUndefined
  end.

(** [v?.k]: optional chaining. *)
Definition optprop (v : JsVal) (k : string) : JsVal :=
  if nullish v then JUndefined else prop v k.

(** [v === "lit"]: strict equality with a string literal. *)
Definition is_str (v : JsVal) (lit : string) : bool :=
  match v with
  | JStr s => String.eqb s lit
  | _ => false
  end.

(** [a || b]. *)
Definition js_or (a b : JsVal) : JsVal := if truthy a then a else b.

(** An object has an own property [k] ([lookup_field] cannot tell a
    property that is absent from one that holds [undefined], which
    [JSON.parse] never produces). *)
Definition has_field (k : string) (fields : list (string * JsVal)) : bool :=
  existsb (fun kv => String.eqb k (fst kv)) fields.

(** The conversion of a value to text, [String(v)], throws a [TypeError]
    on an object whose own property [toString] hides the inherited method:
    no value [JSON.parse] produces can be called, and the inherited
    [valueOf] gives back the object.  An array converts its elements, so it
    throws when one of them does. *)
Fixpoint to_string_throws (v : JsVal) : bool :=
  match v with
  | JObj fields => has_field "toString" fields
  | JArr items =>
      (fix any (l : list JsVal) : bool :=
         match l with
         | [] => false
         | x :: rest => to_string_throws x || any rest
         end) items
  | _ => false
  end.

(** [String(v)] where it does not throw: the coercion
    [RegExp.prototype.test] applies to its argument, and a template literal
    to a value it holds.  An array joins its elements with commas, [null]
    and [undefined] elements giving the empty string. *)
Fixpoint ToString (v : JsVal) : string :=
  match v with
  | JUndefined => "undefined"
  | JNull => "null"
  | JBool true => "true"
  | JBool false => "false"
  | JNum n => NilZero.string_of_int (Z.to_int n)
  | JStr s => s
  | JArr items =>
      (fix join (l : list JsVal) : string :=
         match l with
         | [] => ""
         | x :: rest =>
             let sx := if nullish x then "" else ToString x in
             match rest with
             | [] => sx
             | _ :: _ => sx ++ "," ++ join rest
             end
         end) items
  | JObj _ => "[object Object]"
  end.

End Js.
Import Js.

(** ** Base64, as the handlers use it *)

Module Base64.

Local Open Scope N_scope.

Definition code (c : ascii) : N := N_of_ascii c.

Definition is_upper (c : ascii) : bool := (65 <=? code c) && (code c <=? 90).
Definition is_lower (c : ascii) : bool := (97 <=? code c) && (code c <=? 122).
Definition is_digit (c : ascii) : bool := (48 <=? code c) && (code c <=? 57).

(** The characters of the standard alphabet. *)
Definition is_std (c : ascii) : bool :=
  is_upper c || is_lower c || is_digit c || (code c =? 43) || (code c =? 47).

(** The character class [[A-Za-z0-9+/=]] of the regular expression. *)
Definition in_class (c : ascii) : bool := is_std c || (code c =? 61).

Fixpoint all_in_class (s : string) : bool :=
  match s with
  | EmptyString => true
  | String c rest => in_class c && all_in_class rest
  end.

(** [/^[A-Za-z0-9+/=]+$/.test(s)]: at least one character, all of them in
    the class ([$] without the [m] flag is the end of the input). *)
Definition isBase64 (s : string) : bool :=
  negb (String.eqb s "") && all_in_class s.

(** The value of a character, in the standard or the URL-safe alphabet. *)
Definition unbase64 (c : ascii) : option N :=
  if is_upper c then Some (code c - 65)
  else if is_lower c then Some (code c - 71)
  else if is_digit c then Some (code c + 4)
  else if (code c =? 43) || (code c =? 45) then Some 62
  else if (code c =? 47) || (code c =? 95) then Some 63
  else None.

Definition b64char (v : N) : ascii :=
  if v <? 26 then ascii_of_N (v + 65)
  else if v <? 52 then ascii_of_N (v + 71)
  else if v <? 62 then ascii_of_N (v - 4)
  else if v =? 62 then "+"%char
  else "/"%char.

(** The low six bits of a UTF-8 continuation byte. *)
Definition continuation (c : option ascii) : option N :=
  match c with
  | Some b =>
      if (128 <=? code b) && (code b <? 192) then Some (code b mod 64)
      else None
  | None => None
  end.

(** A text is kept as its UTF-8 bytes, a JavaScript string is a sequence of
    UTF-16 code units.  [utf8_head a rest] reads the character that starts
    with the byte [a]: the code units it stands for (two for a character
    beyond U+FFFF) and the number of bytes of [rest] that belong to it.  A
    byte that starts no well-formed UTF-8 sequence stands for itself. *)
Definition utf8_head (a : ascii) (rest : string) : list N * nat :=
  let x := code a in
  if x <? 192 then ([x], 0%nat)
  else if x <? 224 then
    match continuation (String.get 0%nat rest) with
    | Some b =>
        let point := (x mod 32) * 64 + b in
        if 128 <=? point then ([point], 1%nat) else ([x], 0%nat)
    | None => ([x], 0%nat)
    end
  else if x <? 240 then
    match continuation (String.get 0%nat rest),
          continuation (String.get 1%nat rest) with
    | Some b, Some c =>
        let point := (x mod 16) * 4096 + b * 64 + c in
        if 2048 <=? point then ([point], 2%nat) else ([x], 0%nat)
    | _, _ => ([x], 0%nat)
    end
  else if x <? 248 then
    match continuation (String.get 0%nat rest),
          continuation (String.get 1%nat rest),
          continuation (String.get 2%nat rest) with
    | Some b, Some c, Some d =>
        let point := (x mod 8) * 262144 + b * 4096 + c * 64 + d in
        if (65536 <=? point) && (point <? 1114112)
        then ([55296 + (point - 65536) / 1024;
               56320 + (point - 65536) mod 1024], 3%nat)
        else ([x], 0%nat)
    | _, _, _ => ([x], 0%nat)
    end
  else ([x], 0%nat).

(** The code units of a text; [skip] bytes at its head belong to the
    character before. *)
Fixpoint code_units_from (skip : nat) (s : string) : list N :=
  match s with
  | EmptyString => []
  | String a rest =>
      match skip with
      | S n => code_units_from n rest
      | O =>
          let '(units, n) := utf8_head a rest in
          (units ++ code_units_from n rest)%list
      end
  end.

Definition code_units (s : string) : list N := code_units_from 0 s.

(** [Buffer.from(s, 'base64')] belongs to the Node.js runtime, not to the
    repository; this follows its documentation and its decoder.  The
    decoder is forgiving: it looks at the low byte of every code unit,
    accepts the standard and the URL-safe alphabet, ignores whitespace
    (and, like it, every other byte outside the alphabet), stops at the
    first [=], and does not ask for padding.  [sextets] are the 6-bit
    values it reads. *)
Fixpoint sextets_of (units : list N) : list N :=
  match units with
  | nil => nil
  | u :: rest =>
      let c := ascii_of_N (u mod 256) in
      if code c =? 61 then nil
      else match unbase64 c with
           | Some v => v :: sextets_of rest
           | None => sextets_of rest
           end
  end.

Definition sextets (s : string) : list N := sextets_of (code_units s).

(** Four values give three bytes; a last group of three gives two bytes, of
    two gives one, and a lone value gives none. *)
Fixpoint pack (vs : list N) : list N :=
  match vs with
  | a :: b :: c :: d :: rest =>
      (a * 4 + b / 16) :: ((b mod 16) * 16 + c / 4) :: ((c mod 4) * 64 + d)
        :: pack rest
  | [a; b; c] => [a * 4 + b / 16; (b mod 16) * 16 + c / 4]
  | [a; b] => [a * 4 + b / 16]
  | _ => []
  end.

Definition Buffer_from_base64 (s : string) : list N := pack (sextets s).

(** [buf.toString('base64')]: the standard alphabet, padded with [=]. *)
Fixpoint toString_base64 (bytes : list N) : string :=
  match bytes with
  | [] => ""
  | [a] =>
      String (b64char (a / 4)) (String (b64char ((a mod 4) * 16)) "==")
  | [a; b] =>
      String (b64char (a / 4))
        (String (b64char ((a mod 4) * 16 + b / 16))
           (String (b64char ((b mod 16) * 4)) "="))
  | a :: b :: c :: rest =>
      String (b64char (a / 4))
        (String (b64char ((a mod 4) * 16 + b / 16))
           (String (b64char ((b mod 16) * 4 + c / 64))
              (String (b64char (c mod 64)) (toString_base64 rest))))
  end.

(** [Buffer.from(s, "base64").toString("base64")] on a string. *)
Definition reencode (s : string) : string :=
  toString_base64 (Buffer_from_base64 s).

(** The low [k] bits of a character's value are zero. *)
Definition low_bits_zero (k : N) (c : ascii) : bool :=
  match unbase64 c with
  | Some v => v mod k =? 0
  | None => false
  end.

(** Canonical base64 (RFC 4648, section 4): quartets of the standard
    alphabet, the last one possibly padded, with zero bits in the unused
    positions. *)
Fixpoint canonical (s : string) : bool :=
  match s with
  | EmptyString => true
  | String a (String b (String c (String d rest))) =>
      match rest with
      | EmptyString =>
          is_std a && is_std b &&
          (((code c =? 61) && (code d =? 61) && low_bits_zero 16 b)
           || (is_std c && (code d =? 61) && low_bits_zero 4 c)
           || (is_std c && is_std d))
      | String _ _ =>
          is_std a && is_std b && is_std c && is_std d && canonical rest
      end
  | _ => false
  end.

End Base64.

(** ** The two sockets and what the handlers do to them *)

Module Net.

(** [readyState] of a [ws] WebSocket. *)
Inductive ReadyState : Type := CONNECTING | OPEN | CLOSING | CLOSED.

(** [readyState === WebSocket.OPEN]. *)
Definition is_open (r : ReadyState) : bool :=
  match r with
  | OPEN => true
  | _ => false
  end.

Inductive Level : Type := c_log | c_info | c_error.

(** One observable action of a handler.  Provider sockets are numbered in
    the order [new WebSocket] creates them; the timer set together with
    socket [k] carries the same number.  A frame is the value handed to
    [JSON.stringify].  A send or close effect is the call the handler
    makes; [UncaughtTypeError] is an exception that leaves a handler with
    no [catch] around it. *)
Inductive Effect : Type :=
| Console (lvl : Level) (text : string)
| FetchSignedUrl
| NewWebSocket (k : nat) (url : JsVal)
| SetTimeout (k : nat) (ms : Z)
| ClearTimeout (k : nat)
| ElevenLabsSend (k : nat) (frame : JsVal)
| ElevenLabsCloseCall (k : nat) (code reason : JsVal)
| TwilioSend (frame : JsVal)
| TwilioCloseCall (code reason : JsVal)
| UncaughtTypeError.

(** How a call ended: it returned, or a [TypeError] left it. *)
Inductive Completion : Type := Returned | Threw.

(** What [fetch] and [response.json()] gave [getSignedUrl]. *)
Inductive FetchResult : Type :=
| FetchRejected
| FetchResponse (ok : bool) (body : option JsVal).

(** What the network delivers to a session.  [parsed] is the result of
    [JSON.parse] on the raw frame, [None] when it throws.  [code] and
    [reason] of a close event are what [ws] hands over, the status code as
    a number and the text of the close frame.  [constructed] says whether
    [new WebSocket(signedUrl)] returned (it throws on a URL it cannot
    read).  [ReadyStateChange] is a socket changing state on its own:
    [None] is the Twilio socket, [Some k] provider socket [k]. *)
Inductive Event : Type :=
| TwilioMessage (parsed : option JsVal)
| TwilioClosed (code reason : JsVal)
| TwilioError
| SignedUrlSettled (r : FetchResult) (constructed : bool)
| ElevenLabsOpen (k : nat)
| ElevenLabsMessage (k : nat) (parsed : option JsVal)
| ElevenLabsError (k : nat)
| ElevenLabsClosed (k : nat) (code reason : JsVal)
| ConnectionTimeout (k : nat)
| ReadyStateChange (leg : option nat) (r : ReadyState).

(** [ws] belongs to the dependencies, not to the repository; this follows
    its [close(code, reason)].  On an open socket the call sets
    [readyState] to [CLOSING] and sends a close frame, unless [code] is
    neither [undefined] nor a status code that may be sent (1000 to 1014
    without 1004, 1005 and 1006, or 3000 to 4999): then it throws a
    [TypeError] and no frame is sent. *)
Definition ws_accepts (code : JsVal) : bool :=
  match code with
  | JUndefined => true
  | JNum n =>
      ((1000 <=? n) && (n <=? 1014)
       && negb (n =? 1004) && negb (n =? 1005) && negb (n =? 1006)
       || (3000 <=? n) && (n <=? 4999))%Z
  | _ => false
  end.

(** What follows a [close(code, reason)] call on an open socket made
    outside any [try]. *)
Definition refusal (code : JsVal) : list Effect :=
  if ws_accepts code then [] else [UncaughtTypeError].

Definition is_console (e : Effect) : bool :=
  match e with
  | Console _ _ => true
  | _ => false
  end.

(** The effects a test [f] selects, and how many there are. *)
Definition keep (f : Effect -> bool) (es : list Effect) : list Effect :=
  filter (fun e => f e = true) es.

Definition count (f : Effect -> bool) (es : list Effect) : nat :=
  length (keep f es).

(** The effects that touch a socket, a timer or the network. *)
Definition actions (es : list Effect) : list Effect :=
  keep (fun e => negb (is_console e)) es.

Definition is_twilio_close (e : Effect) : bool :=
  match e with
  | TwilioCloseCall _ _ => true
  | _ => false
  end.

Definition is_provider_close (e : Effect) : bool :=
  match e with
  | ElevenLabsCloseCall _ _ _ => true
  | _ => false
  end.

Definition is_new_socket (e : Effect) : bool :=
  match e with
  | NewWebSocket _ _ => true
  | _ => false
  end.

(** The frames of the two wire formats. *)
Definition media_frame (streamSid payload : JsVal) : JsVal :=
  JObj [("event", JStr "media"); ("streamSid", streamSid);
        ("media", JObj [("payload", payload)])].

Definition clear_frame (streamSid : JsVal) : JsVal :=
  JObj [("event", JStr "clear"); ("streamSid", streamSid)].

Definition pong_frame (event_id : JsVal) : JsVal :=
  JObj [("type", JStr "pong"); ("event_id", event_id)].

Definition audio_chunk_frame (chunk : string) : JsVal :=
  JObj [("user_audio_chunk", JStr chunk)].

(** [ElevenLabsSend] of a [user_audio_chunk] frame. *)
Definition is_audio_chunk_send (e : Effect) : bool :=
  match e with
  | ElevenLabsSend _ (JObj [(key, JStr _)]) => String.eqb key "user_audio_chunk"
  | _ => false
  end.

(** [getSignedUrl]: the URL, or [None] when it throws (the fetch rejects,
    the status is not a success, the body is not JSON or is [null]). *)
Definition getSignedUrl (r : FetchResult) : list Effect * option JsVal :=
  match r with
  | FetchRejected => ([Console c_error "Error getting signed URL:"], None)
  | FetchResponse ok body =>
      if negb ok then ([Console c_error "Error getting signed URL:"], None)
      else
        match body with
        | None => ([Console c_error "Error getting signed URL:"], None)
        | Some data =>
            if nullish data
            then ([Console c_error "Error getting signed URL:"], None)
            else ([], Some (prop data "signed_url"))
        end
  end.

End Net.
Import Net.

(** ** The variant with [closeWithCode] (inbound-calls.js) *)

Module Defensive.

Local Open Scope list_scope.

(** The closure variables of one [/media-stream] connection, and the part
    of the environment its handlers read: [twilio] is
    [connection.socket.readyState], [sockets] the [readyState] of every
    provider socket created so far, [timers] the connection timeouts still
    pending, [inflight] the number of [start] handlers suspended at
    [await getSignedUrl()]. *)
Record Session : Type := mkSession {
  streamSid : JsVal;
  elevenLabsWs : option nat;
  isClosing : bool;
  twilio : ReadyState;
  sockets : list ReadyState;
  timers : list nat;
  inflight : nat
}.

(** The session of a connection Twilio has just opened. *)
Definition initial : Session :=
  mkSession JNull None false OPEN [] [] 0.

Definition set_streamSid (v : JsVal) (s : Session) : Session :=
  mkSession v (elevenLabsWs s) (isClosing s) (twilio s) (sockets s)
    (timers s) (inflight s).

Definition set_elevenLabsWs (w : option nat) (s : Session) : Session :=
  mkSession (streamSid s) w (isClosing s) (twilio s) (sockets s)
    (timers s) (inflight s).

Definition set_isClosing (b : bool) (s : Session) : Session :=
  mkSession (streamSid s) (elevenLabsWs s) b (twilio s) (sockets s)
    (timers s) (inflight s).

Definition set_twilio (r : ReadyState) (s : Session) : Session :=
  mkSession (streamSid s) (elevenLabsWs s) (isClosing s) r (sockets s)
    (timers s) (inflight s).

Definition set_sockets (l : list ReadyState) (s : Session) : Session :=
  mkSession (streamSid s) (elevenLabsWs s) (isClosing s) (twilio s) l
    (timers s) (inflight s).

Definition set_timers (l : list nat) (s : Session) : Session :=
  mkSession (streamSid s) (elevenLabsWs s) (isClosing s) (twilio s)
    (sockets s) l (inflight s).

Definition set_inflight (n : nat) (s : Session) : Session :=
  mkSession (streamSid s) (elevenLabsWs s) (isClosing s) (twilio s)
    (sockets s) (timers s) n.

(** [sock.readyState === WebSocket.OPEN] for provider socket [k]. *)
Definition socket_open (s : Session) (k : nat) : bool :=
  match sockets s !! k with
  | Some r => is_open r
  | None => false
  end.

(** [elevenLabsWs && elevenLabsWs.readyState === WebSocket.OPEN]. *)
Definition provider_open (s : Session) : bool :=
  match elevenLabsWs s with
  | Some k => socket_open s k
  | None => false
  end.

(** [sock.close(...)] of [ws] on an open socket: the socket is [CLOSING]
    when the call returns. *)
Definition close_provider (s : Session) : Session * list Effect :=
  match elevenLabsWs s with
  | Some k =>
      if socket_open s k
      then (set_sockets (<[k := CLOSING]> (sockets s)) s,
            [ElevenLabsCloseCall k (JNum 1000) (JStr "Closing normally")])
      else (s, [])
  | None => (s, [])
  end.

(** [connection.socket.close(code, reason)] behind its [readyState]
    check.  It is the last statement of [closeWithCode], and the callers
    that can pass a code [ws] refuses (the timer callback and the close
    handlers) have no [try] around the call: the [TypeError] leaves the
    handler. *)
Definition close_twilio (code reason : JsVal) (s : Session)
  : Session * list Effect :=
  if is_open (twilio s)
  then (set_twilio CLOSING s, TwilioCloseCall code reason :: refusal code)
  else (s, []).

(** [closeWithCode(code, reason)]. *)
Definition closeWithCode (code reason : JsVal) (s : Session)
  : Session * list Effect :=
  if isClosing s then (s, [])
  else
    let s0 := set_isClosing true s in
    let '(s1, e1) := close_provider s0 in
    let '(s2, e2) := close_twilio code reason s1 in
    (s2, Console c_log "[Server] Closing connection with code" :: e1 ++ e2).

(** A console line, then the rest of the handler. *)
Definition logged (lvl : Level) (text : string) (r : Session * list Effect)
  : Session * list Effect :=
  (fst r, Console lvl text :: snd r).

(** [handleElevenLabsMessage(message, connection)]; [connection] is the
    Twilio socket.  The [test] of the [audio] case throws on a payload that
    has no text, into the [catch] around it.  The [ping] case calls
    [elevenLabsWs.send]: the frame goes out when that socket is open. *)
Definition handleElevenLabsMessage (streamSid : JsVal)
    (elevenLabsWs : option nat) (message : JsVal)
  : list Effect * Completion :=
  if negb (truthy message) || negb (typeof_object message) then
    ([Console c_error "[II] Invalid message format received from ElevenLabs"],
     Returned)
  else
    let type := prop message "type" in
    if is_str type "conversation_initiation_metadata" then
      ([Console c_info "[II] Received conversation initiation metadata."],
       Returned)
    else if is_str type "audio" then
      let payload := optprop (prop message "audio_event") "audio_base_64" in
      if truthy payload then
        if negb (truthy streamSid) then
          ([Console c_error "[II] Cannot send audio: streamSid is not set"],
           Returned)
        else if to_string_throws payload then
          ([Console c_error "[II] Error processing audio message:"], Returned)
        else if negb (Base64.isBase64 (ToString payload)) then
          ([Console c_error
              "[II] Invalid base64 payload received from ElevenLabs"],
           Returned)
        else ([TwilioSend (media_frame streamSid payload)], Returned)
      else
        ([Console c_error "[II] Audio event missing base64 payload"],
         Returned)
    else if is_str type "interruption" then
      ([TwilioSend (clear_frame streamSid)], Returned)
    else if is_str type "ping" then
      let event_id := optprop (prop message "ping_event") "event_id" in
      if truthy event_id then
        match elevenLabsWs with
        | Some k => ([ElevenLabsSend k (pong_frame event_id)], Returned)
        | None => ([], Threw)
        end
      else ([], Returned)
    else ([], Returned).

(** [elevenLabsWs.on("message", ...)]. *)
Definition onElevenLabsMessage (parsed : option JsVal) (s : Session)
  : Session * list Effect :=
  if negb (is_open (twilio s)) then
    (s, [Console c_error "[II] Cannot send message: Twilio connection closed"])
  else
    match parsed with
    | None => (s, [Console c_error "[II] Error parsing message:"])
    | Some message =>
        match handleElevenLabsMessage (streamSid s) (elevenLabsWs s) message with
        | (es, Returned) => (s, es)
        | (es, Threw) => (s, es ++ [Console c_error "[II] Error parsing message:"])
        end
    end.

(** [elevenLabsWs.on("open", ...)] of the socket created with timer [k]. *)
Definition onElevenLabsOpen (k : nat) (s : Session) : Session * list Effect :=
  (set_timers (filter (fun t => t ≠ k) (timers s)) s,
   [ClearTimeout k; Console c_log "[II] Connected to Conversational AI."]).

(** [elevenLabsWs.on("error", ...)]. *)
Definition onElevenLabsError (s : Session) : Session * list Effect :=
  logged c_error "[II] WebSocket error:"
    (closeWithCode (JNum 1011) (JStr "ElevenLabs WebSocket error") s).

(** [elevenLabsWs.on("close", (code, reason) => ...)]. *)
Definition onElevenLabsClose (code reason : JsVal) (s : Session)
  : Session * list Effect :=
  logged c_log "[II] ElevenLabs disconnected with code"
    (closeWithCode code reason s).

(** The callback of [setTimeout(..., 10000)]: it reads the variable
    [elevenLabsWs] when it runs. *)
Definition onConnectionTimeout (s : Session) : Session * list Effect :=
  match elevenLabsWs s with
  | Some k =>
      if socket_open s k then (s, [])
      else closeWithCode (JNum 1006) (JStr "ElevenLabs connection timeout") s
  | None => (s, [UncaughtTypeError])
  end.

(** [connection.socket.on("close", (code, reason) => ...)]. *)
Definition onTwilioClose (code reason : JsVal) (s : Session)
  : Session * list Effect :=
  logged c_log "[Twilio] Client disconnected with code"
    (closeWithCode (js_or code (JNum 1000))
       (js_or reason (JStr "Connection closed")) s).

(** [connection.socket.on("error", ...)]. *)
Definition onTwilioError (s : Session) : Session * list Effect :=
  logged c_error "[Twilio] WebSocket error:"
    (closeWithCode (JNum 1011) (JStr "Twilio WebSocket error") s).

(** The [catch] of the [start] case. *)
Definition startFailed (s : Session) : Session * list Effect :=
  logged c_error "[Server] Failed to initialize ElevenLabs connection:"
    (closeWithCode (JNum 1011)
       (JStr "Failed to initialize ElevenLabs connection") s).

(** The [start] case from the point where [await getSignedUrl()] settles. *)
Definition startResumed (r : FetchResult) (constructed : bool) (s : Session)
  : Session * list Effect :=
  match getSignedUrl r with
  | (es, Some signedUrl) =>
      if constructed then
        let k := length (sockets s) in
        (set_timers (k :: timers s)
           (set_sockets (sockets s ++ [CONNECTING])
              (set_elevenLabsWs (Some k) s)),
         es ++ [NewWebSocket k signedUrl; SetTimeout k 10000])
      else
        let r := startFailed s in (fst r, es ++ snd r)
  | (es, None) =>
      let r := startFailed s in (fst r, es ++ snd r)
  end.

Section Runtime.

(** [Buffer.from(v, "base64").toString("base64")] for a [v] that is not a
    string, [None] when Node throws: the runtime builds a buffer from an
    array-like value and rejects the other kinds. *)
Variable reencode_other : JsVal -> option string.

Definition user_audio_chunk (payload : JsVal) : option string :=
  match payload with
  | JStr text => Some (Base64.reencode text)
  | _ => reencode_other payload
  end.

(** The [media] case. *)
Definition onMedia (data : JsVal) (s : Session) : Session * list Effect :=
  match elevenLabsWs s with
  | None =>
      (s, [Console c_error
             "[Twilio] Cannot process media: ElevenLabs connection not ready"])
  | Some k =>
      if negb (socket_open s k) then
        (s, [Console c_error
               "[Twilio] Cannot process media: ElevenLabs connection not ready"])
      else if negb (truthy (prop data "media"))
              || negb (truthy (prop (prop data "media") "payload")) then
        (s, [Console c_error "[Twilio] Invalid media message format"])
      else
        match user_audio_chunk (prop (prop data "media") "payload") with
        | Some chunk => (s, [ElevenLabsSend k (audio_chunk_frame chunk)])
        | None => (s, [Console c_error "[Twilio] Error processing media:"])
        end
  end.

(** The [catch] of the handler. *)
Definition messageFailed (s : Session) : Session * list Effect :=
  logged c_error "[Twilio] Error processing message:"
    (closeWithCode (JNum 1003) (JStr "Message processing error") s).

(** [connection.socket.on("message", ...)], up to the [await].  The
    console lines of the [start] and the default case hold a value of the
    frame in a template literal: when it has no text the line throws, into
    the [catch] of the handler. *)
Definition onTwilioMessage (parsed : option JsVal) (s : Session)
  : Session * list Effect :=
  match parsed with
  | None => messageFailed s
  | Some data =>
      if negb (truthy data) || negb (truthy (prop data "event")) then
        logged c_error "[Twilio] Invalid message format:"
          (closeWithCode (JNum 1003) (JStr "Invalid message format") s)
      else
        let event := prop data "event" in
        if is_str event "start" then
          if negb (truthy (prop data "start"))
             || negb (truthy (prop (prop data "start") "streamSid")) then
            logged c_error "[Twilio] Missing streamSid in start event"
              (closeWithCode (JNum 1003) (JStr "Missing streamSid") s)
          else
            let s1 := set_streamSid (prop (prop data "start") "streamSid") s in
            if to_string_throws (prop (prop data "start") "streamSid")
            then messageFailed s1
            else
              (set_inflight (S (inflight s)) s1,
               [Console c_log "[Twilio] Stream started with ID:";
                FetchSignedUrl])
        else if is_str event "media" then onMedia data s
        else if is_str event "stop" then
          closeWithCode (JNum 1000) (JStr "Stop event received") s
        else if to_string_throws event then messageFailed s
        else (s, [Console c_log "[Twilio] Received unhandled event:"])
  end.

(** One event: the change it means for the sockets, then the handler
    registered for it ([ws] has set a socket to [CLOSING] when it emits
    [error], and to [CLOSED] when it emits [close]).  An event for a socket,
    a timer or a fetch that does not exist is never delivered. *)
Definition step (ev : Event) (s : Session) : Session * list Effect :=
  match ev with
  | TwilioMessage parsed => onTwilioMessage parsed s
  | TwilioClosed code reason => onTwilioClose code reason (set_twilio CLOSED s)
  | TwilioError => onTwilioError (set_twilio CLOSING s)
  | SignedUrlSettled r constructed =>
      match inflight s with
      | O => (s, [])
      | S n => startResumed r constructed (set_inflight n s)
      end
  | ElevenLabsOpen k =>
      if decide (k < length (sockets s))
      then onElevenLabsOpen k (set_sockets (<[k := OPEN]> (sockets s)) s)
      else (s, [])
  | ElevenLabsMessage k parsed =>
      if decide (k < length (sockets s))
      then onElevenLabsMessage parsed s
      else (s, [])
  | ElevenLabsError k =>
      if decide (k < length (sockets s))
      then onElevenLabsError (set_sockets (<[k := CLOSING]> (sockets s)) s)
      else (s, [])
  | ElevenLabsClosed k code reason =>
      if decide (k < length (sockets s))
      then onElevenLabsClose code reason
             (set_sockets (<[k := CLOSED]> (sockets s)) s)
      else (s, [])
  | ConnectionTimeout k =>
      if decide (k ∈ timers s)
      then onConnectionTimeout
             (set_timers (filter (fun t => t ≠ k) (timers s)) s)
      else (s, [])
  | ReadyStateChange None r => (set_twilio r s, [])
  | ReadyStateChange (Some k) r =>
      (set_sockets (<[k := r]> (sockets s)) s, [])
  end.

(** The events of a list, in order: the final session and everything done. *)
Fixpoint run (evs : list Event) (s : Session) : Session * list Effect :=
  match evs with
  | [] => (s, [])
  | ev :: rest =>
      let '(s1, e1) := step ev s in
      let '(s2, e2) := run rest s1 in
      (s2, e1 ++ e2)
  end.

(** [closeWithCode] called once per element of a list of arguments. *)
Fixpoint closeAll (calls : list (JsVal * JsVal)) (s : Session)
  : Session * list Effect :=
  match calls with
  | [] => (s, [])
  | (code, reason) :: rest =>
      let '(s1, e1) := closeWithCode code reason s in
      let '(s2, e2) := closeAll rest s1 in
      (s2, e1 ++ e2)
  end.

End Runtime.

End Defensive.

(** ** The variant without [closeWithCode] *)

Module Lenient.

Local Open Scope list_scope.

(** This variant has no [isClosing] and sets no timer. *)
Record Session : Type := mkSession {
  streamSid : JsVal;
  elevenLabsWs : option nat;
  twilio : ReadyState;
  sockets : list ReadyState;
  inflight : nat
}.

Definition initial : Session := mkSession JNull None OPEN [] 0.

Definition set_streamSid (v : JsVal) (s : Session) : Session :=
  mkSession v (elevenLabsWs s) (twilio s) (sockets s) (inflight s).

Definition set_elevenLabsWs (w : option nat) (s : Session) : Session :=
  mkSession (streamSid s) w (twilio s) (sockets s) (inflight s).

Definition set_twilio (r : ReadyState) (s : Session) : Session :=
  mkSession (streamSid s) (elevenLabsWs s) r (sockets s) (inflight s).

Definition set_sockets (l : list ReadyState) (s : Session) : Session :=
  mkSession (streamSid s) (elevenLabsWs s) (twilio s) l (inflight s).

Definition set_inflight (n : nat) (s : Session) : Session :=
  mkSession (streamSid s) (elevenLabsWs s) (twilio s) (sockets s) n.

Definition socket_open (s : Session) (k : nat) : bool :=
  match sockets s !! k with
  | Some r => is_open r
  | None => false
  end.

Definition provider_open (s : Session) : bool :=
  match elevenLabsWs s with
  | Some k => socket_open s k
  | None => false
  end.

(** [readyState] after [sock.close()] of [ws]: a closed socket stays
    closed, any other is closing. *)
Definition after_close (r : ReadyState) : ReadyState :=
  match r with
  | CLOSED => CLOSED
  | _ => CLOSING
  end.

(** [if (elevenLabsWs) { elevenLabsWs.close(); }]. *)
Definition close_provider (s : Session) : Session * list Effect :=
  match elevenLabsWs s with
  | Some k =>
      (set_sockets (alter after_close k (sockets s)) s,
       [ElevenLabsCloseCall k JUndefined JUndefined])
  | None => (s, [])
  end.

(** [handleElevenLabsMessage(message, connection)]. *)
Definition handleElevenLabsMessage (streamSid : JsVal)
    (elevenLabsWs : option nat) (message : JsVal)
  : list Effect * Completion :=
  if negb (truthy message) || negb (typeof_object message) then
    ([Console c_error "[II] Invalid message format received from ElevenLabs"],
     Returned)
  else
    let type := prop message "type" in
    if is_str type "conversation_initiation_metadata" then
      ([Console c_info "[II] Received conversation initiation metadata."],
       Returned)
    else if is_str type "audio" then
      let payload := optprop (prop message "audio_event") "audio_base_64" in
      if truthy payload then
        if negb (truthy streamSid) then
          ([Console c_error "[II] Cannot send audio: streamSid is not set"],
           Returned)
        else if to_string_throws payload then
          ([Console c_error "[II] Error processing audio message:"], Returned)
        else if negb (Base64.isBase64 (ToString payload)) then
          ([Console c_error
              "[II] Invalid base64 payload received from ElevenLabs"],
           Returned)
        else ([TwilioSend (media_frame streamSid payload)], Returned)
      else
        ([Console c_error "[II] Audio event missing base64 payload"],
         Returned)
    else if is_str type "interruption" then
      ([TwilioSend (clear_frame streamSid)], Returned)
    else if is_str type "ping" then
      let event_id := optprop (prop message "ping_event") "event_id" in
      if truthy event_id then
        match elevenLabsWs with
        | Some k => ([ElevenLabsSend k (pong_frame event_id)], Returned)
        | None => ([], Threw)
        end
      else ([], Returned)
    else ([], Returned).

(** [elevenLabsWs.on("message", ...)]: no look at the Twilio socket. *)
Definition onElevenLabsMessage (parsed : option JsVal) (s : Session)
  : Session * list Effect :=
  match parsed with
  | None => (s, [Console c_error "[II] Error parsing message:"])
  | Some message =>
      match handleElevenLabsMessage (streamSid s) (elevenLabsWs s) message with
      | (es, Returned) => (s, es)
      | (es, Threw) => (s, es ++ [Console c_error "[II] Error parsing message:"])
      end
  end.

(** [connection.on("close", ...)]. *)
Definition onTwilioClose (s : Session) : Session * list Effect :=
  let r := close_provider s in
  (fst r, snd r ++ [Console c_log "[Twilio] Client disconnected"]).

(** [connection.on("error", ...)]. *)
Definition onTwilioError (s : Session) : Session * list Effect :=
  let r := close_provider s in
  (fst r, Console c_error "[Twilio] WebSocket error:" :: snd r).

(** The [start] case from the point where [await getSignedUrl()] settles;
    its [catch] calls [connection.socket.close()]. *)
Definition startResumed (r : FetchResult) (constructed : bool) (s : Session)
  : Session * list Effect :=
  let failed :=
    (set_twilio (after_close (twilio s)) s,
     [Console c_error "[Server] Failed to initialize ElevenLabs connection:";
      TwilioCloseCall JUndefined JUndefined]) in
  match getSignedUrl r with
  | (es, Some signedUrl) =>
      if constructed then
        let k := length (sockets s) in
        (set_sockets (sockets s ++ [CONNECTING]) (set_elevenLabsWs (Some k) s),
         es ++ [NewWebSocket k signedUrl])
      else (fst failed, es ++ snd failed)
  | (es, None) => (fst failed, es ++ snd failed)
  end.

Section Runtime.

Variable reencode_other : JsVal -> option string.

Definition user_audio_chunk (payload : JsVal) : option string :=
  match payload with
  | JStr text => Some (Base64.reencode text)
  | _ => reencode_other payload
  end.

(** The [media] case; a [TypeError] ([data.media] missing, or a payload
    [Buffer.from] rejects) reaches the [catch] of the handler. *)
Definition onMedia (data : JsVal) (s : Session) : Session * list Effect :=
  match elevenLabsWs s with
  | None => (s, [])
  | Some k =>
      if socket_open s k then
        if nullish (prop data "media") then
          (s, [Console c_error "[Twilio] Error processing message:"])
        else
          match user_audio_chunk (prop (prop data "media") "payload") with
          | Some chunk => (s, [ElevenLabsSend k (audio_chunk_frame chunk)])
          | None => (s, [Console c_error "[Twilio] Error processing message:"])
          end
      else (s, [])
  end.

(** [connection.socket.on("message", ...)], up to the [await]; its
    [catch] only writes to the console. *)
Definition onTwilioMessage (parsed : option JsVal) (s : Session)
  : Session * list Effect :=
  match parsed with
  | None => (s, [Console c_error "[Twilio] Error processing message:"])
  | Some data =>
      if negb (truthy data) || negb (truthy (prop data "event")) then
        (s, [Console c_error "[Twilio] Invalid message format:"])
      else
        let event := prop data "event" in
        if is_str event "start" then
          if negb (truthy (prop data "start"))
             || negb (truthy (prop (prop data "start") "streamSid")) then
            (s, [Console c_error "[Twilio] Missing streamSid in start event"])
          else
            let s1 := set_streamSid (prop (prop data "start") "streamSid") s in
            if to_string_throws (prop (prop data "start") "streamSid")
            then (s1, [Console c_error "[Twilio] Error processing message:"])
            else
              (set_inflight (S (inflight s)) s1,
               [Console c_log "[Twilio] Stream started with ID:";
                FetchSignedUrl])
        else if is_str event "media" then onMedia data s
        else if is_str event "stop" then close_provider s
        else if to_string_throws event
        then (s, [Console c_error "[Twilio] Error processing message:"])
        else (s, [Console c_log "[Twilio] Received unhandled event:"])
  end.

Definition step (ev : Event) (s : Session) : Session * list Effect :=
  match ev with
  | TwilioMessage parsed => onTwilioMessage parsed s
  | TwilioClosed _ _ => onTwilioClose (set_twilio CLOSED s)
  | TwilioError => onTwilioError (set_twilio CLOSING s)
  | SignedUrlSettled r constructed =>
      match inflight s with
      | O => (s, [])
      | S n => startResumed r constructed (set_inflight n s)
      end
  | ElevenLabsOpen k =>
      if decide (k < length (sockets s))
      then (set_sockets (<[k := OPEN]> (sockets s)) s,
            [Console c_log "[II] Connected to Conversational AI."])
      else (s, [])
  | ElevenLabsMessage k parsed =>
      if decide (k < length (sockets s))
      then onElevenLabsMessage parsed s
      else (s, [])
  | ElevenLabsError k =>
      if decide (k < length (sockets s))
      then (set_sockets (<[k := CLOSING]> (sockets s)) s,
            [Console c_error "[II] WebSocket error:"])
      else (s, [])
  | ElevenLabsClosed k _ _ =>
      if decide (k < length (sockets s))
      then (set_sockets (<[k := CLOSED]> (sockets s)) s,
            [Console c_log "[II] Disconnected."])
      else (s, [])
  | ConnectionTimeout _ => (s, [])
  | ReadyStateChange None r => (set_twilio r s, [])
  | ReadyStateChange (Some k) r =>
      (set_sockets (<[k := r]> (sockets s)) s, [])
  end.

Fixpoint run (evs : list Event) (s : Session) : Session * list Effect :=
  match evs with
  | [] => (s, [])
  | ev :: rest =>
      let '(s1, e1) := step ev s in
      let '(s2, e2) := run rest s1 in
      (s2, e1 ++ e2)
  end.

End Runtime.

End Lenient.


(** ** Vocabulary of the statements *)

Module Inv.

Local Open Scope list_scope.

(** How many more close calls a session can make on one leg: one until
    [isClosing] is set, none after. *)
Definition budget (closing : bool) : nat := if closing then 0 else 1.

Definition within (f : Effect -> bool) (closing : bool)
    (r : Defensive.Session * list Effect) : Prop :=
  count f (snd r) + budget (Defensive.isClosing (fst r)) <= budget closing.

Definition close_test (f : Effect -> bool) : Prop :=
  f = is_twilio_close \/ f = is_provider_close.

(** What every reachable session satisfies: a provider socket or a pending
    fetch exists only after a [start] event gave a stream identifier; the
    variable [elevenLabsWs] and every pending timer name a socket that was
    created. *)
Definition wf (s : Defensive.Session) : Prop :=
  (Defensive.inflight s <> 0 \/ Defensive.elevenLabsWs s <> None ->
   truthy (Defensive.streamSid s) = true)
  /\ (forall k, Defensive.elevenLabsWs s = Some k ->
                k < length (Defensive.sockets s))
  /\ (forall t, t ∈ Defensive.timers s -> t < length (Defensive.sockets s)).

Definition lenient_wf (s : Lenient.Session) : Prop :=
  Lenient.inflight s <> 0 \/ Lenient.elevenLabsWs s <> None ->
  truthy (Lenient.streamSid s) = true.

(** A close or error notification of either socket. *)
Definition is_close_notification (ev : Event) : bool :=
  match ev with
  | TwilioClosed _ _ | TwilioError
  | ElevenLabsClosed _ _ _ | ElevenLabsError _ => true
  | _ => false
  end.

(** The call [closeWithCode] makes on the provider socket. *)
Definition provider_close_call (s : Defensive.Session) : list Effect :=
  match Defensive.elevenLabsWs s with
  | Some j =>
      if Defensive.socket_open s j
      then [ElevenLabsCloseCall j (JNum 1000) (JStr "Closing normally")]
      else []
  | None => []
  end.

(** What [connection.socket.close(code, reason)] comes to on an open
    socket: the call, and the [TypeError] when [ws] refuses the code. *)
Definition twilio_close_call (code reason : JsVal) : list Effect :=
  if ws_accepts code
  then [TwilioCloseCall code reason]
  else [TwilioCloseCall code reason; UncaughtTypeError].

(** The events that end the wait for provider socket [j]: the socket
    opens, or the timer set with it fires. *)
Definition ends_wait (j : nat) (ev : Event) : bool :=
  match ev with
  | ElevenLabsOpen k | ConnectionTimeout k => Nat.eqb k j
  | _ => false
  end.

(** [fetch] rejected, or the response status is not a success. *)
Definition fetch_failed (r : FetchResult) : bool :=
  match r with
  | FetchRejected => true
  | FetchResponse ok _ => negb ok
  end.

End Inv.
Import Inv.

(** ** Frames and sessions of the scenarios *)

Module Scenario.

Local Open Scope list_scope.

(** A runtime whose [Buffer.from] rejects every value that is not a
    string. *)
Definition no_runtime : JsVal -> option string := fun _ => None.

Definition start_message (sid : JsVal) : JsVal :=
  JObj [("event", JStr "start"); ("start", JObj [("streamSid", sid)])].

Definition media_message (payload : JsVal) : JsVal :=
  JObj [("event", JStr "media"); ("media", JObj [("payload", payload)])].

Definition stop_message : JsVal := JObj [("event", JStr "stop")].

Definition audio_message (payload : JsVal) : JsVal :=
  JObj [("type", JStr "audio");
        ("audio_event", JObj [("audio_base_64", payload)])].

Definition interruption_message : JsVal :=
  JObj [("type", JStr "interruption")].

Definition signed_url : JsVal := JStr "wss://api.elevenlabs.io/v1/convai".

Definition signed_ok : FetchResult :=
  FetchResponse true (Some (JObj [("signed_url", signed_url)])).

(** A session in the middle of a call: stream [SID1], provider socket 0
    open, Twilio open. *)
Definition active_session : Defensive.Session :=
  Defensive.mkSession (JStr "SID1") (Some 0) false OPEN [OPEN] [] 0.

Definition active_lenient : Lenient.Session :=
  Lenient.mkSession (JStr "SID1") (Some 0) OPEN [OPEN] 0.

(** A call up to the open provider socket. *)
Definition call_setup : list Event :=
  [TwilioMessage (Some (start_message (JStr "SID1")));
   SignedUrlSettled signed_ok true;
   ElevenLabsOpen 0].

(** The same call after Twilio sent [stop]: both sockets are closing. *)
Definition call_stopped : list Event :=
  call_setup ++ [TwilioMessage (Some stop_message)].


End Scenario.
Import Scenario.

(** ** Vocabulary for the rest of the handlers *)

Module Cover.

Local Open Scope list_scope.

Definition is_twilio_send (e : Effect) : bool :=
  match e with
  | TwilioSend _ => true
  | _ => false
  end.

Definition is_fetch (e : Effect) : bool :=
  match e with
  | FetchSignedUrl => true
  | _ => false
  end.

Definition is_clear_timeout (e : Effect) : bool :=
  match e with
  | ClearTimeout _ => true
  | _ => false
  end.

(** The stream identifier a Twilio frame sets: the frame parses, its
    [event] is ["start"], and [start.streamSid] is present (the guards at the
    head of the handler and of its [start] case). *)
Definition start_sid (ev : Event) : option JsVal :=
  match ev with
  | TwilioMessage (Some data) =>
      if truthy data && truthy (prop data "event")
         && is_str (prop data "event") "start"
         && truthy (prop data "start")
         && truthy (prop (prop data "start") "streamSid")
      then Some (prop (prop data "start") "streamSid")
      else None
  | _ => None
  end.

(** The identifier of the last [start] frame of a list of events, [sid]
    when there is none. *)
Fixpoint last_sid (evs : list Event) (sid : JsVal) : JsVal :=
  match evs with
  | [] => sid
  | ev :: rest =>
      last_sid rest (match start_sid ev with Some v => v | None => sid end)
  end.

(** A [start] frame that reaches [getSignedUrl]: its identifier is
    present and has a text, so the console line before the fetch does not
    throw. *)
Definition fetching_start (ev : Event) : bool :=
  match start_sid ev with
  | Some sid => negb (to_string_throws sid)
  | None => false
  end.

Definition starts (evs : list Event) : nat :=
  length (filter (fun ev => fetching_start ev = true) evs).

(** The Twilio frames the handler answers with [closeWithCode(1003, ...)],
    with the reason it gives: a frame that does not parse, one without an
    [event], a [start] without [start.streamSid]. *)
Definition protocol_error (parsed : option JsVal) : option string :=
  match parsed with
  | None => Some "Message processing error"
  | Some data =>
      if negb (truthy data) || negb (truthy (prop data "event"))
      then Some "Invalid message format"
      else if is_str (prop data "event") "start"
              && (negb (truthy (prop data "start"))
                  || negb (truthy (prop (prop data "start") "streamSid")))
      then Some "Missing streamSid"
      else None
  end.

(** A Twilio frame whose [event] is none of [start], [media], [stop]. *)
Definition unhandled_event (data : JsVal) : bool :=
  truthy data && truthy (prop data "event")
  && negb (is_str (prop data "event") "start")
  && negb (is_str (prop data "event") "media")
  && negb (is_str (prop data "event") "stop").

(** A provider message whose [type] is none of the four the handler
    knows. *)
Definition unknown_type (message : JsVal) : bool :=
  truthy message && typeof_object message
  && negb (is_str (prop message "type") "conversation_initiation_metadata")
  && negb (is_str (prop message "type") "audio")
  && negb (is_str (prop message "type") "interruption")
  && negb (is_str (prop message "type") "ping").

(** The events on which the variant without [closeWithCode] calls
    [elevenLabsWs.close()]: a [stop] frame, and the Twilio connection
    closing or failing. *)
Definition lenient_trigger (ev : Event) : bool :=
  match ev with
  | TwilioMessage (Some data) => is_str (prop data "event") "stop"
  | TwilioClosed _ _ | TwilioError => true
  | _ => false
  end.

(** [elevenLabsWs] is the socket created last. *)
Definition newest (s : Defensive.Session) : Prop :=
  Defensive.elevenLabsWs s =
  match length (Defensive.sockets s) with
  | O => None
  | S n => Some n
  end.

End Cover.
Import Cover.
(** * Properties *)

(** ** Selecting effects *)

Section KeepFacts.

Local Open Scope list_scope.

Lemma keep_app (f : Effect -> bool) (es1 es2 : list Effect) :
  keep f (es1 ++ es2) = keep f es1 ++ keep f es2.
Proof. unfold keep. apply filter_app. Qed.

Lemma keep_cons (f : Effect -> bool) (e : Effect) (es : list Effect) :
  keep f (e :: es) = if f e then e :: keep f es else keep f es.
Proof.
  unfold keep. destruct (f e) eqn:E.
  - rewrite filter_cons_True; auto.
  - rewrite filter_cons_False; auto. rewrite E. discriminate.
Qed.

Lemma count_app (f : Effect -> bool) (es1 es2 : list Effect) :
  count f (es1 ++ es2) = count f es1 + count f es2.
Proof. unfold count. rewrite keep_app. apply length_app. Qed.

(** [getSignedUrl] only writes to the console. *)
Lemma getSignedUrl_keep_nil (f : Effect -> bool) (r : FetchResult) :
  (forall lvl text, f (Console lvl text) = false) ->
  keep f (fst (getSignedUrl r)) = [].
Proof.
  intros Hc. unfold getSignedUrl.
  repeat case_match; simpl; rewrite ?keep_cons, ?Hc; reflexivity.
Qed.

End KeepFacts.
(** ** The text of a value *)

Section TextFacts.

Local Open Scope list_scope.

Lemma all_in_class_app (a b : string) :
  Base64.all_in_class (a ++ b)%string
  = Base64.all_in_class a && Base64.all_in_class b.
Proof.
  induction a as [|c a IH]; simpl; [reflexivity|].
  rewrite IH, andb_assoc. reflexivity.
Qed.

(** A value whose conversion to text throws would not pass the
    character-class test either: what [ToString] gives for it has a
    character outside the class. *)
Lemma throws_not_in_class (v : JsVal) :
  to_string_throws v = true -> Base64.all_in_class (ToString v) = false.
Proof.
  revert v. fix IH 1. intros [| | b | n | s | items | fields]; simpl;
    try discriminate; [|reflexivity].
  destruct items as [|x [|y rest]]; [discriminate| |].
  - rewrite orb_false_r. intros H.
    destruct (nullish x) eqn:En; [destruct x; discriminate|].
    apply IH, H.
  - intros _. rewrite !all_in_class_app. simpl.
    rewrite andb_false_r. reflexivity.
Qed.

Lemma throws_not_isBase64 (v : JsVal) :
  to_string_throws v = true -> Base64.isBase64 (ToString v) = false.
Proof.
  intros H. unfold Base64.isBase64. rewrite throws_not_in_class by exact H.
  apply andb_false_r.
Qed.

End TextFacts.


(** ** Base64 *)

Section Base64Facts.

Import Base64.
Local Open Scope N_scope.

(** Every character of the standard alphabet has a value below 64, is the
    character [b64char] gives for that value, and is not the padding. *)
Lemma unbase64_std (c : ascii) :
  is_std c = true ->
  exists v, unbase64 c = Some v /\ v < 64 /\ b64char v = c /\ (code c =? 61) = false.
Proof.
  destruct c as [[] [] [] [] [] [] [] []]; vm_compute; intros H;
    try discriminate H; eexists; repeat split; reflexivity.
Qed.

Lemma b64char_below (v : N) :
  v < 64 -> is_std (b64char v) = true /\ unbase64 (b64char v) = Some v.
Proof.
  intros H.
  assert (E : forallb (fun n => is_std (b64char (N.of_nat n))
                        && match unbase64 (b64char (N.of_nat n)) with
                           | Some w => w =? N.of_nat n
                           | None => false
                           end) (seq 0 64) = true) by (vm_compute; reflexivity).
  rewrite forallb_forall in E. specialize (E (N.to_nat v)).
  rewrite N2Nat.id in E.
  assert (Hin : In (N.to_nat v) (seq 0 64)) by (apply in_seq; lia).
  apply E in Hin. apply andb_true_iff in Hin as [H1 H2]. split; auto.
  destruct (unbase64 (b64char v)); [|discriminate].
  apply N.eqb_eq in H2. congruence.
Qed.

Lemma b64char_std (v : N) : is_std (b64char v) = true.
Proof.
  destruct (N.ltb_spec v 64) as [H | H]; [apply b64char_below; auto|].
  unfold b64char.
  destruct (N.ltb_spec v 26); [lia|]. destruct (N.ltb_spec v 52); [lia|].
  destruct (N.ltb_spec v 62); [lia|]. destruct (N.eqb_spec v 62); [lia|].
  reflexivity.
Qed.

Ltac div_mod_lia :=
  zify; Z.to_euclidean_division_equations; lia.

(** Three bytes packed from four values give the four values back. *)
Lemma unpack_quartet (a b c d : N) :
  a < 64 -> b < 64 -> c < 64 -> d < 64 ->
  let b1 := a * 4 + b / 16 in
  let b2 := (b mod 16) * 16 + c / 4 in
  let b3 := (c mod 4) * 64 + d in
  b1 / 4 = a /\ (b1 mod 4) * 16 + b2 / 16 = b
  /\ (b2 mod 16) * 4 + b3 / 64 = c /\ b3 mod 64 = d.
Proof. intros Ha Hb Hc Hd b1 b2 b3. subst b1 b2 b3. repeat split; div_mod_lia. Qed.

Lemma unpack_triple (a b c : N) :
  a < 64 -> b < 64 -> c < 64 -> c mod 4 = 0 ->
  let b1 := a * 4 + b / 16 in
  let b2 := (b mod 16) * 16 + c / 4 in
  b1 / 4 = a /\ (b1 mod 4) * 16 + b2 / 16 = b /\ (b2 mod 16) * 4 = c.
Proof. intros Ha Hb Hc H0 b1 b2. subst b1 b2. repeat split; div_mod_lia. Qed.

Lemma unpack_pair (a b : N) :
  a < 64 -> b < 64 -> b mod 16 = 0 ->
  let b1 := a * 4 + b / 16 in
  b1 / 4 = a /\ (b1 mod 4) * 16 = b.
Proof. intros Ha Hb H0 b1. subst b1. repeat split; div_mod_lia. Qed.

(** A byte below 192 is a character of its own, and the decoder sees it
    as it is. *)
Lemma code_units_single (c : ascii) (rest : string) :
  code c < 192 -> code_units (String c rest) = code c :: code_units rest.
Proof.
  intros H. apply N.ltb_lt in H. unfold code_units.
  cbn [code_units_from]. unfold utf8_head. rewrite H. reflexivity.
Qed.

Lemma low_byte_of_code (c : ascii) : ascii_of_N (code c mod 256) = c.
Proof. destruct c as [[] [] [] [] [] [] [] []]; reflexivity. Qed.

Lemma unbase64_single (c : ascii) (v : N) :
  unbase64 c = Some v -> code c < 192.
Proof.
  destruct c as [[] [] [] [] [] [] [] []]; vm_compute; intros H;
    try discriminate H; reflexivity.
Qed.

Lemma pad_is (c : ascii) : (code c =? 61) = true -> c = "="%char.
Proof.
  intros H. apply N.eqb_eq in H. unfold code in H.
  rewrite <- (ascii_N_embedding c), H. reflexivity.
Qed.

Lemma sextets_std (c : ascii) (rest : string) (v : N) :
  unbase64 c = Some v -> (code c =? 61) = false ->
  sextets (String c rest) = v :: sextets rest.
Proof.
  intros H1 H2. unfold sextets.
  rewrite (code_units_single c rest (unbase64_single c v H1)).
  cbn [sextets_of]. rewrite low_byte_of_code, H2, H1. reflexivity.
Qed.

Lemma sextets_pad (c : ascii) (rest : string) :
  (code c =? 61) = true -> sextets (String c rest) = [].
Proof.
  intros H. unfold sextets. rewrite code_units_single.
  - cbn [sextets_of]. rewrite low_byte_of_code, H. reflexivity.
  - rewrite (pad_is c H). reflexivity.
Qed.

(** Canonical base64 survives [Buffer.from(s, "base64").toString("base64")]
    unchanged. *)
Lemma reencode_canonical_length (n : nat) (s : string) :
  (String.length s <= n)%nat -> canonical s = true -> reencode s = s.
Proof.
  revert s. induction n as [|n IH]; intros s Hlen Hc.
  - destruct s; [reflexivity|simpl in Hlen; lia].
  - destruct s as [|a [|b [|c [|d rest]]]]; try discriminate Hc;
      [reflexivity|].
    cbn [canonical] in Hc.
    assert (Hab : is_std a = true /\ is_std b = true).
    { destruct rest; repeat (apply andb_true_iff in Hc as [Hc ?]); auto. }
    destruct Hab as [Ha Hb].
    destruct (unbase64_std a Ha) as (va & Ua & La & Ca & Pa).
    destruct (unbase64_std b Hb) as (vb & Ub & Lb & Cb & Pb).
    unfold reencode, Buffer_from_base64.
    rewrite (sextets_std a _ va Ua Pa), (sextets_std b _ vb Ub Pb).
    destruct rest as [|e rest'].
    + rewrite Ha, Hb in Hc. cbn [andb] in Hc.
      apply orb_true_iff in Hc as [Hc | Hc];
        [apply orb_true_iff in Hc as [Hc | Hc]|].
      * apply andb_true_iff in Hc as [Hc Hz].
        apply andb_true_iff in Hc as [Hpc Hpd].
        rewrite (sextets_pad c _ Hpc).
        unfold low_bits_zero in Hz. rewrite Ub in Hz. apply N.eqb_eq in Hz.
        destruct (unpack_pair va vb La Lb Hz) as [E1 E2].
        cbn [pack toString_base64]. rewrite E1, E2, Ca, Cb.
        rewrite (pad_is c Hpc), (pad_is d Hpd). reflexivity.
      * apply andb_true_iff in Hc as [Hc Hz].
        apply andb_true_iff in Hc as [Hsc Hpd].
        destruct (unbase64_std c Hsc) as (vc & Uc & Lc & Cc & Pc).
        rewrite (sextets_std c _ vc Uc Pc), (sextets_pad d _ Hpd).
        unfold low_bits_zero in Hz. rewrite Uc in Hz. apply N.eqb_eq in Hz.
        destruct (unpack_triple va vb vc La Lb Lc Hz) as (E1 & E2 & E3).
        cbn [pack toString_base64]. rewrite E1, E2, E3, Ca, Cb, Cc.
        rewrite (pad_is d Hpd). reflexivity.
      * apply andb_true_iff in Hc as [Hsc Hsd].
        destruct (unbase64_std c Hsc) as (vc & Uc & Lc & Cc & Pc).
        destruct (unbase64_std d Hsd) as (vd & Ud & Ld & Cd & Pd).
        rewrite (sextets_std c _ vc Uc Pc), (sextets_std d _ vd Ud Pd).
        destruct (unpack_quartet va vb vc vd La Lb Lc Ld) as (E1 & E2 & E3 & E4).
        change (sextets "") with (@nil N). cbn [pack toString_base64].
        rewrite E1, E2, E3, E4, Ca, Cb, Cc, Cd. reflexivity.
    + repeat (apply andb_true_iff in Hc as [Hc ?]).
      match goal with H : is_std c = true |- _ => rename H into Hsc end.
      match goal with H : is_std d = true |- _ => rename H into Hsd end.
      match goal with H : canonical _ = true |- _ => rename H into Hrest end.
      destruct (unbase64_std c Hsc) as (vc & Uc & Lc & Cc & Pc).
      destruct (unbase64_std d Hsd) as (vd & Ud & Ld & Cd & Pd).
      rewrite (sextets_std c _ vc Uc Pc), (sextets_std d _ vd Ud Pd).
      destruct (unpack_quartet va vb vc vd La Lb Lc Ld) as (E1 & E2 & E3 & E4).
      cbn [pack toString_base64]. rewrite E1, E2, E3, E4, Ca, Cb, Cc, Cd.
      do 4 f_equal. apply IH; [simpl in *; lia|exact Hrest].
Qed.

Lemma reencode_canonical (s : string) :
  canonical s = true -> reencode s = s.
Proof. apply (reencode_canonical_length (String.length s)). lia. Qed.

(** What [toString('base64')] writes is canonical, whatever the bytes. *)
Lemma toString_base64_canonical_length (n : nat) (bytes : list N) :
  (length bytes <= n)%nat -> canonical (toString_base64 bytes) = true.
Proof.
  revert bytes. induction n as [|n IH]; intros bytes Hlen.
  - destruct bytes; [reflexivity|simpl in Hlen; lia].
  - destruct bytes as [|a [|b [|c rest]]]; [reflexivity| | |].
    + cbn [toString_base64 canonical]. rewrite !b64char_std.
      unfold low_bits_zero.
      assert (L : (a mod 4) * 16 < 64) by div_mod_lia.
      destruct (b64char_below _ L) as [_ ->].
      replace (((a mod 4) * 16) mod 16 =? 0) with true
        by (symmetry; apply N.eqb_eq; div_mod_lia).
      reflexivity.
    + cbn [toString_base64 canonical]. rewrite !b64char_std.
      unfold low_bits_zero.
      assert (L : (b mod 16) * 4 < 64) by div_mod_lia.
      destruct (b64char_below _ L) as [_ ->].
      replace (((b mod 16) * 4) mod 4 =? 0) with true
        by (symmetry; apply N.eqb_eq; div_mod_lia).
      cbn. rewrite orb_true_r. reflexivity.
    + cbn [toString_base64 canonical].
      specialize (IH rest ltac:(simpl in Hlen; lia)).
      destruct (toString_base64 rest); rewrite !b64char_std.
      * cbn. rewrite orb_true_r. reflexivity.
      * rewrite IH. reflexivity.
Qed.

Lemma reencode_is_canonical (s : string) : canonical (reencode s) = true.
Proof.
  unfold reencode.
  apply (toString_base64_canonical_length (length (Buffer_from_base64 s))). lia.
Qed.

(** Canonical text has no character outside the class of the regular
    expression. *)
Lemma canonical_in_class_length (n : nat) (s : string) :
  (String.length s <= n)%nat -> canonical s = true -> all_in_class s = true.
Proof.
  revert s. induction n as [|n IH]; intros s Hlen Hc.
  - destruct s; [reflexivity|simpl in Hlen; lia].
  - destruct s as [|a [|b [|c [|d rest]]]]; try discriminate Hc;
      [reflexivity|].
    cbn [canonical] in Hc. cbn [all_in_class]. unfold in_class.
    destruct rest as [|e rest'].
    + apply andb_true_iff in Hc as [Hc H3].
      apply andb_true_iff in Hc as [-> ->]. cbn [orb andb].
      repeat (apply orb_true_iff in H3 as [H3 | H3]);
        repeat (apply andb_true_iff in H3 as [H3 ?]);
        repeat match goal with H : _ = true |- _ => rewrite H; clear H end;
        rewrite ?orb_true_r; reflexivity.
    + repeat (apply andb_true_iff in Hc as [Hc ?]).
      match goal with H : canonical _ = true |- _ => rename H into Hrest end.
      repeat match goal with H : is_std _ = true |- _ => rewrite H; clear H end.
      cbn [orb andb]. apply (IH (String e rest')); [simpl in *; lia|exact Hrest].
Qed.

Lemma canonical_isBase64 (s : string) :
  canonical s = true -> s <> EmptyString -> isBase64 s = true.
Proof.
  intros Hc Hne. unfold isBase64.
  rewrite (canonical_in_class_length (String.length s) s); auto.
  destruct s; [congruence|reflexivity].
Qed.

End Base64Facts.

(** ** The variant without [closeWithCode] *)

Section LenientFacts.

Import Lenient.
Local Open Scope list_scope.

Variable reencode_other : JsVal -> option string.

Local Abbreviation lstep := (Lenient.step reencode_other).
Local Abbreviation lrun := (Lenient.run reencode_other).

Lemma lenient_wf_initial : lenient_wf initial.
Proof. intros [H | H]; simpl in H; congruence. Qed.

Lemma lenient_wf_step (ev : Event) (s : Session) :
  lenient_wf s -> lenient_wf (fst (lstep ev s)).
Proof.
  intros W. destruct ev; unfold Lenient.step; repeat case_decide;
    try exact W.
  - unfold onTwilioMessage, onMedia, close_provider.
    repeat case_match; simpl; try exact W;
      intros _; simpl;
      destruct (truthy (prop (prop _ "start") "streamSid")) eqn:E; auto;
      rewrite orb_true_r in *; discriminate.
  - unfold onTwilioClose, close_provider. simpl. case_match; exact W.
  - unfold onTwilioError, close_provider. case_match; exact W.
  - destruct (inflight s) as [|n] eqn:En; [exact W|].
    assert (Ht : truthy (streamSid s) = true) by (apply W; left; lia).
    unfold startResumed.
    destruct (getSignedUrl r) as [es [url|]]; [destruct constructed|];
      intros _; exact Ht.
  - unfold onElevenLabsMessage. repeat case_match; exact W.
  - destruct leg; exact W.
Qed.

Lemma lenient_wf_run (evs : list Event) (s : Session) :
  lenient_wf s -> lenient_wf (fst (lrun evs s)).
Proof.
  revert s. induction evs as [|ev evs IH]; intros s W; simpl; auto.
  pose proof (lenient_wf_step ev s W) as W1.
  destruct (Lenient.step reencode_other ev s) as [s1 e1].
  specialize (IH s1 W1).
  destruct (Lenient.run reencode_other evs s1) as [s2 e2]. exact IH.
Qed.

Lemma lenient_handle_no_chunk (sid : JsVal) (ws : option nat)
    (message : JsVal) :
  keep is_audio_chunk_send (fst (handleElevenLabsMessage sid ws message)) = [].
Proof. unfold handleElevenLabsMessage. repeat case_match; reflexivity. Qed.

Lemma lenient_step_no_chunk (ev : Event) (s : Session) :
  provider_open s = false ->
  keep is_audio_chunk_send (snd (lstep ev s)) = [].
Proof.
  intros Hp. destruct ev; unfold Lenient.step; repeat case_decide;
    try reflexivity.
  - unfold onTwilioMessage, close_provider.
    repeat case_match; simpl; try reflexivity.
    unfold provider_open in Hp. unfold onMedia.
    destruct (elevenLabsWs s); [|reflexivity]. rewrite Hp. reflexivity.
  - unfold onTwilioClose, close_provider. case_match; reflexivity.
  - unfold onTwilioError, close_provider. case_match; reflexivity.
  - destruct (inflight s); [reflexivity|]. unfold startResumed.
    pose proof (getSignedUrl_keep_nil is_audio_chunk_send r
                  (fun _ _ => eq_refl)) as Hg.
    destruct (getSignedUrl r) as [es [url|]]; [destruct constructed|];
      simpl in *; rewrite keep_app, Hg; reflexivity.
  - unfold onElevenLabsMessage.
    pose proof (fun m => lenient_handle_no_chunk (streamSid s) (elevenLabsWs s) m)
      as Hh.
    destruct parsed as [m|]; [|reflexivity]. specialize (Hh m).
    destruct (handleElevenLabsMessage _ _ m) as [es []]; simpl in *; auto.
    rewrite keep_app, Hh. reflexivity.
  - destruct leg; reflexivity.
Qed.

End LenientFacts.

(** ** The variant with [closeWithCode] *)

Section DefensiveFacts.

Import Defensive.
Local Open Scope list_scope.

Variable reencode_other : JsVal -> option string.

Local Abbreviation step := (Defensive.step reencode_other).
Local Abbreviation run := (Defensive.run reencode_other).

Ltac close_cases :=
  unfold closeWithCode, close_provider, close_twilio, refusal, socket_open;
  simpl;
  repeat (case_match; simpl in *; simplify_eq); try congruence; auto.

Ltac unfold_handlers :=
  unfold Defensive.step, onTwilioMessage, messageFailed, onMedia, onTwilioClose,
    onTwilioError, onElevenLabsOpen, onElevenLabsMessage, onElevenLabsError,
    onElevenLabsClose, onConnectionTimeout, startResumed, startFailed, logged.

Lemma closeWithCode_closing (code reason : JsVal) (s : Session) :
  isClosing s = true -> closeWithCode code reason s = (s, []).
Proof. intros H. unfold closeWithCode. rewrite H. reflexivity. Qed.

Lemma closeWithCode_sets_flag (code reason : JsVal) (s : Session) :
  isClosing (fst (closeWithCode code reason s)) = true.
Proof.
  close_cases.
Qed.

Lemma closeWithCode_twilio_closes (code reason : JsVal) (s : Session) :
  isClosing s = false ->
  keep is_twilio_close (snd (closeWithCode code reason s)) =
  if is_open (twilio s) then [TwilioCloseCall code reason] else [].
Proof.
  intros H. close_cases.
Qed.

Lemma closeWithCode_provider_closes (code reason : JsVal) (s : Session) :
  isClosing s = false ->
  keep is_provider_close (snd (closeWithCode code reason s)) =
  match elevenLabsWs s with
  | Some k =>
      if socket_open s k
      then [ElevenLabsCloseCall k (JNum 1000) (JStr "Closing normally")]
      else []
  | None => []
  end.
Proof.
  intros H. close_cases.
Qed.

Lemma closeWithCode_keep_nil (f : Effect -> bool) (code reason : JsVal)
    (s : Session) :
  f = is_new_socket \/ f = is_audio_chunk_send ->
  keep f (snd (closeWithCode code reason s)) = [].
Proof. intros [-> | ->]; close_cases. Qed.

Lemma actions_logged (lvl : Level) (text : string)
    (r : Session * list Effect) :
  actions (snd (logged lvl text r)) = actions (snd r).
Proof. unfold logged, actions. simpl. rewrite keep_cons. reflexivity. Qed.

(** The calls of a first [closeWithCode]. *)
Lemma closeWithCode_calls (code reason : JsVal) (s : Session) :
  isClosing s = false ->
  actions (snd (closeWithCode code reason s))
  = provider_close_call s
    ++ (if is_open (twilio s) then twilio_close_call code reason else []).
Proof.
  intros H. unfold provider_close_call, twilio_close_call.
  unfold closeWithCode, close_provider, close_twilio, refusal, socket_open.
  rewrite H. simpl.
  repeat (case_match; simpl in *; simplify_eq); try congruence; reflexivity.
Qed.

(** The translation of a provider message closes no socket and opens
    none. *)
Lemma handle_keep_nil (f : Effect -> bool) (sid : JsVal) (ws : option nat)
    (message : JsVal) :
  (forall lvl text, f (Console lvl text) = false) ->
  (forall frame, f (TwilioSend frame) = false) ->
  (forall k frame, f (ElevenLabsSend k frame) = false) ->
  keep f (fst (handleElevenLabsMessage sid ws message)) = [].
Proof.
  intros Hc Ht He. unfold handleElevenLabsMessage.
  repeat case_match; simpl; rewrite ?keep_cons, ?Hc, ?Ht, ?He; reflexivity.
Qed.

Lemma within_closeWithCode (f : Effect -> bool) (code reason : JsVal)
    (s : Session) :
  close_test f -> within f (isClosing s) (closeWithCode code reason s).
Proof.
  intros [-> | ->]; unfold within, budget, count; close_cases.
Qed.

Lemma within_quiet (f : Effect -> bool) (s s' : Session) (es : list Effect) :
  isClosing s' = isClosing s -> keep f es = [] -> within f (isClosing s) (s', es).
Proof.
  intros H1 H2. unfold within, count. simpl. rewrite H1, H2. simpl. lia.
Qed.

Lemma within_prefix (f : Effect -> bool) (b : bool) (es : list Effect)
    (r : Session * list Effect) :
  keep f es = [] -> within f b r -> within f b (fst r, es ++ snd r).
Proof.
  unfold within, count. simpl. intros H. rewrite keep_app, H. auto.
Qed.

Lemma close_test_quiet (f : Effect -> bool) (e : Effect) :
  close_test f -> is_twilio_close e = false -> is_provider_close e = false ->
  f e = false.
Proof. intros [-> | ->]; auto. Qed.

Lemma within_logged (f : Effect -> bool) (b : bool) (lvl : Level)
    (text : string) (r : Session * list Effect) :
  close_test f -> within f b r -> within f b (logged lvl text r).
Proof.
  intros Hf Hr. unfold logged.
  apply (within_prefix f b [Console lvl text]); auto.
  rewrite keep_cons, (close_test_quiet f); auto.
Qed.

Lemma within_onMedia (f : Effect -> bool) (data : JsVal) (s : Session) :
  close_test f -> within f (isClosing s) (onMedia reencode_other data s).
Proof.
  intros Hf. unfold onMedia.
  repeat case_match; apply within_quiet; auto;
    rewrite keep_cons, (close_test_quiet f); auto.
Qed.

Lemma within_onTwilioMessage (f : Effect -> bool) (parsed : option JsVal)
    (s : Session) :
  close_test f ->
  within f (isClosing s) (onTwilioMessage reencode_other parsed s).
Proof.
  intros Hf. unfold onTwilioMessage.
  unfold messageFailed.
  repeat case_match;
    try (apply within_logged; auto);
    try (apply within_closeWithCode; auto; fail);
    try (apply (within_closeWithCode f _ _ (set_streamSid _ s)); auto; fail);
    try (apply within_onMedia; auto; fail);
    apply within_quiet; auto;
    rewrite !keep_cons, !(close_test_quiet f); auto.
Qed.

Lemma within_startResumed (f : Effect -> bool) (r : FetchResult)
    (constructed : bool) (s : Session) :
  close_test f -> within f (isClosing s) (startResumed r constructed s).
Proof.
  intros Hf. unfold startResumed.
  pose proof (getSignedUrl_keep_nil f r) as Hg.
  destruct (getSignedUrl r) as [es [url|]]; simpl in Hg.
  - destruct constructed.
    + apply within_quiet; auto.
      rewrite keep_app, Hg, !keep_cons, !(close_test_quiet f); auto.
      intros; apply close_test_quiet; auto.
    + apply within_prefix.
      * apply Hg. intros; apply close_test_quiet; auto.
      * apply within_logged; auto. apply within_closeWithCode; auto.
  - apply within_prefix.
    + apply Hg. intros; apply close_test_quiet; auto.
    + apply within_logged; auto. apply within_closeWithCode; auto.
Qed.

Lemma within_onElevenLabsMessage (f : Effect -> bool) (parsed : option JsVal)
    (s : Session) :
  close_test f -> within f (isClosing s) (onElevenLabsMessage parsed s).
Proof.
  intros Hf. unfold onElevenLabsMessage.
  pose proof (fun m => handle_keep_nil f (streamSid s) (elevenLabsWs s) m
                (fun l t => close_test_quiet f (Console l t) Hf eq_refl eq_refl)
                (fun fr => close_test_quiet f (TwilioSend fr) Hf eq_refl eq_refl)
                (fun k fr => close_test_quiet f (ElevenLabsSend k fr) Hf
                               eq_refl eq_refl)) as Hh.
  destruct (is_open (twilio s)); simpl.
  - destruct parsed as [m|].
    + specialize (Hh m).
      destruct (handleElevenLabsMessage _ _ m) as [es []]; simpl in Hh;
        apply within_quiet; auto.
      rewrite keep_app, Hh, keep_cons, (close_test_quiet f); auto.
    + apply within_quiet; auto. rewrite keep_cons, (close_test_quiet f); auto.
  - apply within_quiet; auto. rewrite keep_cons, (close_test_quiet f); auto.
Qed.

Lemma within_onConnectionTimeout (f : Effect -> bool) (s : Session) :
  close_test f -> within f (isClosing s) (onConnectionTimeout s).
Proof.
  intros Hf. unfold onConnectionTimeout.
  repeat case_match; try (apply within_closeWithCode; auto);
    apply within_quiet; auto.
  rewrite keep_cons, (close_test_quiet f); auto.
Qed.

Lemma within_step (f : Effect -> bool) (ev : Event) (s : Session) :
  close_test f -> within f (isClosing s) (step ev s).
Proof.
  intros Hf. destruct ev; unfold Defensive.step.
  - apply within_onTwilioMessage; auto.
  - apply (within_logged f (isClosing s)); auto.
    apply (within_closeWithCode f _ _ (set_twilio CLOSED s)); auto.
  - apply (within_logged f (isClosing s)); auto.
    apply (within_closeWithCode f _ _ (set_twilio CLOSING s)); auto.
  - destruct (inflight s) as [|n].
    + apply within_quiet; auto.
    + apply (within_startResumed f r constructed (set_inflight n s)); auto.
  - case_decide.
    + apply within_quiet; auto.
      rewrite !keep_cons, !(close_test_quiet f); auto.
    + apply within_quiet; auto.
  - case_decide.
    + apply within_onElevenLabsMessage; auto.
    + apply within_quiet; auto.
  - case_decide.
    + apply (within_logged f (isClosing s)); auto.
      apply (within_closeWithCode f _ _
               (set_sockets (<[k := CLOSING]> (sockets s)) s)); auto.
    + apply within_quiet; auto.
  - case_decide.
    + apply (within_logged f (isClosing s)); auto.
      apply (within_closeWithCode f _ _
               (set_sockets (<[k := CLOSED]> (sockets s)) s)); auto.
    + apply within_quiet; auto.
  - case_decide.
    + apply (within_onConnectionTimeout f
               (set_timers (filter (fun t => t <> k) (timers s)) s)); auto.
    + apply within_quiet; auto.
  - destruct leg; apply within_quiet; auto.
Qed.

Lemma within_run (f : Effect -> bool) (evs : list Event) (s : Session) :
  close_test f -> within f (isClosing s) (run evs s).
Proof.
  intros Hf. revert s. induction evs as [|ev evs IH]; intros s.
  - apply within_quiet; auto.
  - simpl. pose proof (within_step f ev s Hf) as H1.
    destruct (Defensive.step reencode_other ev s) as [s1 e1].
    pose proof (IH s1) as H2.
    destruct (Defensive.run reencode_other evs s1) as [s2 e2].
    unfold within in *. simpl in *. rewrite count_app. lia.
Qed.

(** [isClosing] never goes back to [false]. *)
Lemma step_keeps_closing (ev : Event) (s : Session) :
  isClosing s = true -> isClosing (fst (step ev s)) = true.
Proof.
  intros H. pose proof (within_step is_twilio_close ev s (or_introl eq_refl)) as W.
  unfold within, budget in W. rewrite H in W.
  destruct (isClosing (fst (step ev s))); auto. lia.
Qed.

Lemma run_keeps_closing (evs : list Event) (s : Session) :
  isClosing s = true -> isClosing (fst (run evs s)) = true.
Proof.
  intros H. pose proof (within_run is_twilio_close evs s (or_introl eq_refl)) as W.
  unfold within, budget in W. rewrite H in W.
  destruct (isClosing (fst (run evs s))); auto. lia.
Qed.

Lemma closeAll_closing (calls : list (JsVal * JsVal)) (s : Session) :
  isClosing s = true -> closeAll calls s = (s, []).
Proof.
  intros H. induction calls as [|[c r] calls IH]; simpl; auto.
  rewrite closeWithCode_closing, IH; auto.
Qed.

(** What [closeWithCode] leaves alone. *)
Lemma closeWithCode_frame (code reason : JsVal) (s : Session) :
  let s' := fst (closeWithCode code reason s) in
  streamSid s' = streamSid s /\ elevenLabsWs s' = elevenLabsWs s
  /\ inflight s' = inflight s /\ timers s' = timers s
  /\ length (sockets s') = length (sockets s).
Proof.
  intros s'. subst s'.
  close_cases; repeat split; simpl; rewrite ?length_insert; auto.
Qed.

Lemma wf_initial : wf initial.
Proof.
  unfold wf, initial; simpl. split; [|split].
  - intros [H | H]; congruence.
  - discriminate.
  - intros t Ht. inversion Ht.
Qed.

Lemma wf_closeWithCode (code reason : JsVal) (s s0 : Session) :
  streamSid s0 = streamSid s -> elevenLabsWs s0 = elevenLabsWs s ->
  inflight s0 = inflight s -> timers s0 = timers s ->
  length (sockets s0) = length (sockets s) ->
  wf s -> wf (fst (closeWithCode code reason s0)).
Proof.
  intros E1 E2 E3 E4 E5 (W1 & W2 & W3).
  destruct (closeWithCode_frame code reason s0) as (F1 & F2 & F3 & F4 & F5).
  unfold wf. rewrite F1, F2, F3, F4, F5, E1, E2, E3, E4, E5. auto.
Qed.

Lemma wf_same (s s' : Session) :
  streamSid s' = streamSid s -> elevenLabsWs s' = elevenLabsWs s ->
  inflight s' = inflight s -> timers s' = timers s ->
  length (sockets s') = length (sockets s) ->
  wf s -> wf s'.
Proof.
  intros E1 E2 E3 E4 E5 (W1 & W2 & W3).
  unfold wf. rewrite E1, E2, E3, E4, E5. auto.
Qed.

Lemma wf_step (ev : Event) (s : Session) : wf s -> wf (fst (step ev s)).
Proof.
  intros W. destruct ev; unfold Defensive.step.
  - unfold onTwilioMessage, messageFailed, onMedia, logged.
    repeat case_match; simpl;
      try (apply (wf_closeWithCode _ _ s); auto; fail);
      try (apply (wf_same s); auto; fail).
    all: match goal with
         | Hg : _ || negb (truthy (prop (prop ?d "start") "streamSid")) = false
           |- _ =>
             assert (Hv : truthy (prop (prop d "start") "streamSid") = true)
               by (destruct (truthy (prop (prop d "start") "streamSid")); auto;
                   rewrite orb_true_r in Hg; discriminate Hg)
         end.
    + match goal with |- wf (fst (closeWithCode _ _ ?s0)) =>
        apply (wf_closeWithCode _ _ s0 s0); auto end.
      destruct W as (W1 & W2 & W3). unfold wf; simpl. auto.
    + destruct W as (W1 & W2 & W3). unfold wf; simpl. auto.
  - apply (wf_closeWithCode _ _ s); auto.
  - apply (wf_closeWithCode _ _ s); auto.
  - destruct (inflight s) as [|n] eqn:En; [exact W|].
    destruct W as (W1 & W2 & W3).
    assert (Ht : truthy (streamSid s) = true) by (apply W1; left; lia).
    unfold startResumed, startFailed, logged.
    destruct (getSignedUrl r) as [es [url|]]; [destruct constructed|]; simpl.
    + unfold wf; simpl. rewrite length_app; simpl.
      split; [intros _; exact Ht|split].
      * intros k [= <-]. lia.
      * intros t Ht'. apply elem_of_cons in Ht' as [-> | Ht']; [lia|].
        apply W3 in Ht'. lia.
    + apply (wf_closeWithCode _ _ (set_inflight n s)); auto.
      unfold wf; simpl; auto.
    + apply (wf_closeWithCode _ _ (set_inflight n s)); auto.
      unfold wf; simpl; auto.
  - case_decide; [|exact W]. destruct W as (W1 & W2 & W3).
    unfold onElevenLabsOpen, wf; simpl. rewrite length_insert.
    split; [auto|split; auto].
    intros t Ht. apply list_elem_of_filter in Ht as [_ Ht]. auto.
  - case_decide; [|exact W]. unfold onElevenLabsMessage.
    repeat case_match; exact W.
  - case_decide; [|exact W].
    apply (wf_closeWithCode _ _ s); simpl; auto. apply length_insert.
  - case_decide; [|exact W].
    apply (wf_closeWithCode _ _ s); simpl; auto. apply length_insert.
  - case_decide; [|exact W]. destruct W as (W1 & W2 & W3).
    assert (W' : wf (set_timers (filter (fun t => t <> k) (timers s)) s)).
    { unfold wf; simpl. split; [auto|split; auto].
      intros t Ht. apply list_elem_of_filter in Ht as [_ Ht]. auto. }
    unfold onConnectionTimeout. simpl.
    repeat case_match; try exact W'.
    apply (wf_closeWithCode _ _ (set_timers (filter (fun t => t <> k) (timers s)) s));
      auto.
  - destruct W as (W1 & W2 & W3).
    destruct leg; unfold wf; simpl; rewrite ?length_insert; auto.
Qed.

Lemma wf_run (evs : list Event) (s : Session) : wf s -> wf (fst (run evs s)).
Proof.
  revert s. induction evs as [|ev evs IH]; intros s W; simpl; auto.
  pose proof (wf_step ev s W) as W1.
  destruct (Defensive.step reencode_other ev s) as [s1 e1].
  specialize (IH s1 W1).
  destruct (Defensive.run reencode_other evs s1) as [s2 e2]. exact IH.
Qed.

(** Audio goes to the provider from the [media] case alone, and only
    through an open socket. *)
Lemma closeWithCode_no_chunk (code reason : JsVal) (s : Session) :
  keep is_audio_chunk_send (snd (closeWithCode code reason s)) = [].
Proof. close_cases. Qed.

Lemma handle_no_chunk (sid : JsVal) (ws : option nat) (message : JsVal) :
  keep is_audio_chunk_send (fst (handleElevenLabsMessage sid ws message)) = [].
Proof. unfold handleElevenLabsMessage. repeat case_match; reflexivity. Qed.

Lemma getSignedUrl_no_chunk (r : FetchResult) :
  keep is_audio_chunk_send (fst (getSignedUrl r)) = [].
Proof. apply getSignedUrl_keep_nil. reflexivity. Qed.

Lemma onMedia_no_chunk (data : JsVal) (s : Session) :
  provider_open s = false ->
  keep is_audio_chunk_send (snd (onMedia reencode_other data s)) = [].
Proof.
  unfold provider_open, onMedia.
  destruct (elevenLabsWs s); [|reflexivity]. intros ->. reflexivity.
Qed.

Lemma step_no_chunk (ev : Event) (s : Session) :
  provider_open s = false ->
  keep is_audio_chunk_send (snd (step ev s)) = [].
Proof.
  intros Hp. destruct ev; unfold Defensive.step; repeat case_decide;
    try reflexivity.
  - unfold onTwilioMessage, messageFailed, logged.
    repeat case_match; simpl; rewrite ?keep_cons; simpl;
      rewrite ?closeWithCode_no_chunk; try reflexivity.
    apply onMedia_no_chunk, Hp.
  - unfold onTwilioClose, logged; simpl. rewrite keep_cons; simpl.
    apply closeWithCode_no_chunk.
  - unfold onTwilioError, logged; simpl. rewrite keep_cons; simpl.
    apply closeWithCode_no_chunk.
  - destruct (inflight s); [reflexivity|].
    unfold startResumed, startFailed, logged.
    pose proof (getSignedUrl_no_chunk r) as Hg.
    destruct (getSignedUrl r) as [es [url|]]; [destruct constructed|];
      simpl in *; rewrite keep_app, Hg, ?keep_cons; simpl;
      rewrite ?closeWithCode_no_chunk; reflexivity.
  - unfold onElevenLabsMessage.
    pose proof (fun m => handle_no_chunk (streamSid s) (elevenLabsWs s) m) as Hh.
    destruct (is_open (twilio s)); [|reflexivity].
    destruct parsed as [m|]; [|reflexivity]. specialize (Hh m).
    destruct (handleElevenLabsMessage _ _ m) as [es []]; simpl in *; auto.
    rewrite keep_app, Hh. reflexivity.
  - unfold onElevenLabsError, logged; simpl. rewrite keep_cons; simpl.
    apply closeWithCode_no_chunk.
  - unfold onElevenLabsClose, logged; simpl. rewrite keep_cons; simpl.
    apply closeWithCode_no_chunk.
  - unfold onConnectionTimeout. repeat case_match; try reflexivity.
    apply closeWithCode_no_chunk.
  - destruct leg; reflexivity.
Qed.

Lemma notification_when_closing (ev : Event) (s : Session) :
  isClosing s = true -> is_close_notification ev = true ->
  actions (snd (step ev s)) = [].
Proof.
  intros H Hev. destruct ev; try discriminate; unfold Defensive.step;
    unfold_handlers; repeat case_decide; simpl;
    rewrite ?closeWithCode_closing; auto.
Qed.

(** C1: however often and from whichever handler [closeWithCode] is called,
    the two sockets are closed once: the first call closes every socket
    that is open and sets [isClosing], every later call does nothing, and
    no run of events makes a session call [close] twice on a leg. *)
Theorem closeWithCode_exactly_once (s : Session) (code reason : JsVal)
    (calls : list (JsVal * JsVal)) :
  isClosing s = false ->
  let r := closeAll ((code, reason) :: calls) s in
  r = closeWithCode code reason s
  /\ isClosing (fst r) = true
  /\ count is_twilio_close (snd r) = (if is_open (twilio s) then 1 else 0)
  /\ count is_provider_close (snd r) = (if provider_open s then 1 else 0)
  /\ (forall evs code' reason',
        let s' := fst (run evs (fst r)) in
        closeWithCode code' reason' s' = (s', []))
  /\ (forall evs,
        count is_twilio_close (snd (run evs s)) <= 1
        /\ count is_provider_close (snd (run evs s)) <= 1).
Proof.
  intros H r.
  assert (Hr : r = closeWithCode code reason s).
  { subst r. simpl.
    pose proof (closeWithCode_sets_flag code reason s) as Hs.
    destruct (closeWithCode code reason s) as [s1 e1]; simpl in Hs.
    rewrite closeAll_closing by exact Hs. rewrite app_nil_r. reflexivity. }
  split; [exact Hr|]. rewrite Hr.
  split; [apply closeWithCode_sets_flag|].
  split.
  { unfold count. rewrite closeWithCode_twilio_closes by exact H.
    destruct (is_open (twilio s)); reflexivity. }
  split.
  { unfold count, provider_open.
    rewrite closeWithCode_provider_closes by exact H.
    destruct (elevenLabsWs s); [destruct (socket_open s _)|]; reflexivity. }
  split.
  { intros evs c' r' s'. apply closeWithCode_closing.
    apply run_keeps_closing, closeWithCode_sets_flag. }
  intros evs.
  pose proof (within_run is_twilio_close evs s (or_introl eq_refl)) as W1.
  pose proof (within_run is_provider_close evs s (or_intror eq_refl)) as W2.
  unfold within, budget in *. destruct (isClosing s), (isClosing _); lia.
Qed.

(** C5: the first teardown closes the provider socket, if open, with 1000
    and calls [close(code, reason)] on the Twilio socket, if open, with the
    code and reason it was given; when the trigger is a provider socket
    closing, these are that socket's code and reason.  The call closes the
    Twilio socket when [ws] accepts the code, as it does 1011.  A code it
    refuses, as the 1005 and 1006 a provider socket reports when it went
    away without a close frame, makes the call throw out of the handler:
    the Twilio socket is not closed with that code.  Any later close or
    error notification of either leg makes no call at all. *)
Theorem teardown_propagates_code (s : Session) (code reason : JsVal) :
  isClosing s = false ->
  let r := closeWithCode code reason s in
  actions (snd r)
  = provider_close_call s
    ++ (if is_open (twilio s) then twilio_close_call code reason else [])
  /\ (forall k, k < length (sockets s) ->
        actions (snd (step (ElevenLabsClosed k code reason) s))
        = provider_close_call (set_sockets (<[k := CLOSED]> (sockets s)) s)
          ++ (if is_open (twilio s)
              then twilio_close_call code reason else []))
  /\ twilio_close_call (JNum 1011) reason
     = [TwilioCloseCall (JNum 1011) reason]
  /\ twilio_close_call (JNum 1005) reason
     = [TwilioCloseCall (JNum 1005) reason; UncaughtTypeError]
  /\ twilio_close_call (JNum 1006) reason
     = [TwilioCloseCall (JNum 1006) reason; UncaughtTypeError]
  /\ (forall evs ev, is_close_notification ev = true ->
        actions (snd (step ev (fst (run evs (fst r))))) = []).
Proof.
  intros H r. subst r. split; [|split].
  - apply closeWithCode_calls, H.
  - intros k Hk. unfold Defensive.step. case_decide; [|lia].
    unfold onElevenLabsClose. rewrite actions_logged.
    apply (closeWithCode_calls code reason
             (set_sockets (<[k := CLOSED]> (sockets s)) s)), H.
  - repeat split. intros evs ev Hev. apply notification_when_closing; auto.
    apply run_keeps_closing, closeWithCode_sets_flag.
Qed.

(** C2: audio goes to the provider only after a [start] event gave the
    stream identifier and while the provider socket is open.  In both
    variants, an event that makes a reachable session send a
    [user_audio_chunk] frame finds [streamSid] set and [elevenLabsWs] open;
    from any session whose provider socket is absent or not open, no event
    sends one. *)
Theorem media_needs_start_and_open (evs : list Event) (ev : Event) :
  let d := fst (run evs Defensive.initial) in
  let l := fst (Lenient.run reencode_other evs Lenient.initial) in
  (keep is_audio_chunk_send (snd (step ev d)) <> [] ->
   truthy (streamSid d) = true /\ provider_open d = true)
  /\ (keep is_audio_chunk_send (snd (Lenient.step reencode_other ev l)) <> [] ->
      truthy (Lenient.streamSid l) = true /\ Lenient.provider_open l = true)
  /\ (forall s, provider_open s = false ->
        keep is_audio_chunk_send (snd (step ev s)) = [])
  /\ (forall s, Lenient.provider_open s = false ->
        keep is_audio_chunk_send (snd (Lenient.step reencode_other ev s)) = []).
Proof.
  intros d l. split; [|split; [|split]].
  - intros Hne. destruct (provider_open d) eqn:Hp.
    + split; [|reflexivity].
      destruct (wf_run evs Defensive.initial wf_initial) as (W1 & _).
      apply W1. right. fold d. unfold provider_open in Hp.
      destruct (elevenLabsWs d); congruence.
    + exfalso. apply Hne. apply step_no_chunk, Hp.
  - intros Hne. destruct (Lenient.provider_open l) eqn:Hp.
    + split; [|reflexivity].
      apply (lenient_wf_run reencode_other evs Lenient.initial
               lenient_wf_initial).
      right. fold l. unfold Lenient.provider_open in Hp.
      destruct (Lenient.elevenLabsWs l); congruence.
    + exfalso. apply Hne. apply lenient_step_no_chunk, Hp.
  - intros s Hp. apply step_no_chunk, Hp.
  - intros s Hp. apply lenient_step_no_chunk, Hp.
Qed.

Lemma is_str_true (v : JsVal) (lit : string) :
  is_str v lit = true -> v = JStr lit.
Proof.
  destruct v; simpl; try discriminate. intros H.
  apply String.eqb_eq in H. congruence.
Qed.

Lemma typed_message (message : JsVal) (lit : string) :
  is_str (prop message "type") lit = true ->
  truthy message = true /\ typeof_object message = true
  /\ prop message "type" = JStr lit.
Proof.
  intros H. apply is_str_true in H.
  destruct message; simpl in *; try discriminate; auto.
Qed.

(** C3, amended: a provider audio event reaches Twilio exactly when the
    Twilio socket is open, the payload is present and not empty, the stream
    identifier is set and the payload passes the character-class test; the
    frame then carries the payload unchanged.  In every other case the
    event is dropped: nothing is sent, no socket is closed and the session
    is as it was. *)
Theorem provider_audio_forwarding (s : Session) (message : JsVal) :
  is_str (prop message "type") "audio" = true ->
  let payload := optprop (prop message "audio_event") "audio_base_64" in
  let r := onElevenLabsMessage (Some message) s in
  fst r = s
  /\ actions (snd r) =
       (if is_open (twilio s) && truthy payload && truthy (streamSid s)
           && Base64.isBase64 (ToString payload)
        then [TwilioSend (media_frame (streamSid s) payload)]
        else [])
  /\ actions (fst (handleElevenLabsMessage (streamSid s) (elevenLabsWs s)
                     message)) =
       (if truthy payload && truthy (streamSid s)
           && Base64.isBase64 (ToString payload)
        then [TwilioSend (media_frame (streamSid s) payload)]
        else []).
Proof.
  intros Ht payload r. subst r.
  destruct (typed_message _ _ Ht) as (H1 & H2 & H3).
  unfold onElevenLabsMessage, handleElevenLabsMessage.
  rewrite H1, H2, H3. cbn [negb orb is_str String.eqb Ascii.eqb Bool.eqb].
  fold payload.
  pose proof (throws_not_isBase64 payload) as Hth.
  destruct (to_string_throws payload);
    [rewrite Hth by reflexivity; rewrite !andb_false_r|];
    destruct (is_open (twilio s)), (truthy payload), (truthy (streamSid s));
    try destruct (Base64.isBase64 (ToString payload));
    repeat split; reflexivity.
Qed.

(** C9, amended: [handleElevenLabsMessage] answers an interruption with one
    [clear] frame carrying the current stream identifier and nothing else;
    the event reaches it only while the Twilio socket is open, otherwise it
    is dropped with a console line. *)
Theorem interruption_clears_buffer (s : Session) (message : JsVal) :
  is_str (prop message "type") "interruption" = true ->
  handleElevenLabsMessage (streamSid s) (elevenLabsWs s) message
  = ([TwilioSend (clear_frame (streamSid s))], Returned)
  /\ onElevenLabsMessage (Some message) s
     = (s, if is_open (twilio s)
           then [TwilioSend (clear_frame (streamSid s))]
           else [Console c_error
                   "[II] Cannot send message: Twilio connection closed"]).
Proof.
  intros Ht. destruct (typed_message _ _ Ht) as (H1 & H2 & H3).
  unfold onElevenLabsMessage, handleElevenLabsMessage.
  rewrite H1, H2, H3. cbn [negb orb is_str String.eqb Ascii.eqb Bool.eqb].
  destruct (is_open (twilio s)); split; reflexivity.
Qed.

(** C10: the two variants translate a provider message in the same way:
    same frames to the same sockets, same console lines, same outcome. *)
Theorem handleElevenLabsMessage_variants_agree (sid : JsVal)
    (ws : option nat) (message : JsVal) :
  Defensive.handleElevenLabsMessage sid ws message
  = Lenient.handleElevenLabsMessage sid ws message.
Proof.
  unfold Defensive.handleElevenLabsMessage, Lenient.handleElevenLabsMessage.
  reflexivity.
Qed.

(** C4, amended: while the provider socket is open, a string payload of a
    [media] event is not checked but re-encoded, so what goes out as
    [user_audio_chunk] is always canonical base64 (and, unless empty, passes
    the character-class test), and is the payload itself when the payload
    is canonical.  The variant with [closeWithCode] asks for a payload: a
    missing or empty one sends nothing.  The variant without it re-encodes
    in the same way and asks for nothing: an empty payload goes out as an
    empty chunk. *)
Theorem media_forwarding (s : Session) (k : nat) (data : JsVal) :
  elevenLabsWs s = Some k -> socket_open s k = true ->
  is_str (prop data "event") "media" = true ->
  let payload := prop (prop data "media") "payload" in
  let r := onTwilioMessage reencode_other (Some data) s in
  fst r = s
  /\ (truthy payload = false -> actions (snd r) = [])
  /\ (forall text, payload = JStr text -> text <> EmptyString ->
        snd r = [ElevenLabsSend k (audio_chunk_frame (Base64.reencode text))]
        /\ Base64.canonical (Base64.reencode text) = true
        /\ (Base64.reencode text <> EmptyString ->
            Base64.isBase64 (Base64.reencode text) = true)
        /\ (Base64.canonical text = true -> Base64.reencode text = text))
  /\ (forall text l, payload = JStr text ->
        Lenient.elevenLabsWs l = Some k -> Lenient.socket_open l k = true ->
        snd (Lenient.onTwilioMessage reencode_other (Some data) l)
        = [ElevenLabsSend k (audio_chunk_frame (Base64.reencode text))])
  /\ (forall l, payload = JStr "" ->
        Lenient.elevenLabsWs l = Some k -> Lenient.socket_open l k = true ->
        snd (Lenient.onTwilioMessage reencode_other (Some data) l)
        = [ElevenLabsSend k (audio_chunk_frame "")]).
Proof.
  intros Hw Ho He payload r. subst r.
  assert (Hd : truthy data = true /\ prop data "event" = JStr "media").
  { apply is_str_true in He.
    destruct data; simpl in *; try discriminate; auto. }
  destruct Hd as [Hd1 Hd2].
  unfold onTwilioMessage, Lenient.onTwilioMessage. rewrite Hd1, Hd2.
  cbn [negb orb truthy is_str String.eqb Ascii.eqb Bool.eqb].
  unfold onMedia, Lenient.onMedia. rewrite Hw, Ho. cbn [negb].
  fold payload.
  assert (Hl : forall text l, payload = JStr text ->
             Lenient.elevenLabsWs l = Some k ->
             Lenient.socket_open l k = true ->
             snd (match Lenient.elevenLabsWs l with
                  | Some k0 =>
                      if Lenient.socket_open l k0
                      then
                        if nullish (prop data "media")
                        then (l, [Console c_error
                                    "[Twilio] Error processing message:"])
                        else
                          match Lenient.user_audio_chunk reencode_other payload
                          with
                          | Some chunk =>
                              (l, [ElevenLabsSend k0 (audio_chunk_frame chunk)])
                          | None =>
                              (l, [Console c_error
                                     "[Twilio] Error processing message:"])
                          end
                      else (l, [])
                  | None => (l, [])
                  end)
             = [ElevenLabsSend k (audio_chunk_frame (Base64.reencode text))]).
  { intros text l Hp Hlw Hlo. rewrite Hlw, Hlo.
    assert (Hm : nullish (prop data "media") = false).
    { subst payload. destruct (prop data "media"); simpl in *;
        try discriminate; auto. }
    rewrite Hm, Hp. reflexivity. }
  split; [|split; [|split; [|split]]].
  - repeat case_match; reflexivity.
  - intros Hp.
    destruct (truthy (prop data "media")); cbn [negb orb]; [|reflexivity].
    rewrite Hp. reflexivity.
  - intros text Hp Hne.
    assert (Hm : truthy (prop data "media") = true).
    { subst payload. destruct (prop data "media"); simpl in *;
        try discriminate; auto. }
    rewrite Hm, Hp. cbn [negb orb truthy user_audio_chunk].
    split; [|split; [|split]].
    + destruct text; [congruence|reflexivity].
    + apply reencode_is_canonical.
    + apply canonical_isBase64, reencode_is_canonical.
    + apply reencode_canonical.
  - exact Hl.
  - intros l Hp Hlw Hlo. exact (Hl "" l Hp Hlw Hlo).
Qed.

(** C6: when the fetch of the signed URL fails (it rejects, or the status
    is not a success), the [start] case opens no provider socket and calls
    [closeWithCode(1011, ...)]: the session is closing, and a session that
    was not yet closing closes its open Twilio socket with 1011. *)
Theorem signed_url_failure_closes (s : Session) (r : FetchResult)
    (constructed : bool) (n : nat) :
  fetch_failed r = true -> inflight s = S n ->
  let res := step (SignedUrlSettled r constructed) s in
  keep is_new_socket (snd res) = []
  /\ elevenLabsWs (fst res) = elevenLabsWs s
  /\ length (sockets (fst res)) = length (sockets s)
  /\ isClosing (fst res) = true
  /\ (isClosing s = false ->
      keep is_twilio_close (snd res) =
      if is_open (twilio s)
      then [TwilioCloseCall (JNum 1011)
              (JStr "Failed to initialize ElevenLabs connection")]
      else []).
Proof.
  intros Hf Hn res. subst res. unfold Defensive.step. rewrite Hn.
  assert (Hg : exists es, getSignedUrl r = (es, None)
                          /\ keep is_new_socket es = []
                          /\ keep is_twilio_close es = []).
  { destruct r as [|[] body]; try discriminate Hf; simpl; eauto. }
  destruct Hg as (es & Hg & Hes & Hes').
  unfold startResumed, startFailed, logged. rewrite Hg. cbn [fst snd].
  set (s0 := set_inflight n s).
  destruct (closeWithCode_frame (JNum 1011)
              (JStr "Failed to initialize ElevenLabs connection") s0)
    as (F1 & F2 & F3 & F4 & F5).
  repeat split.
  - rewrite keep_app, Hes, keep_cons. cbn [is_new_socket app].
    apply closeWithCode_keep_nil. left. reflexivity.
  - rewrite F2. reflexivity.
  - rewrite F5. reflexivity.
  - apply closeWithCode_sets_flag.
  - intros Hc. rewrite keep_app, Hes', keep_cons. cbn [is_twilio_close app].
    rewrite closeWithCode_twilio_closes by exact Hc. reflexivity.
Qed.

(** A timer that is no longer pending never is again: a new timer gets
    the number of a new socket. *)
Lemma timer_stays_cleared (k : nat) (ev : Event) (s : Session) :
  k < length (sockets s) -> k ∉ timers s ->
  k < length (sockets (fst (step ev s))) /\ k ∉ timers (fst (step ev s)).
Proof.
  intros Hk Ht.
  assert (Hc : forall c r s0,
             length (sockets s0) = length (sockets s) ->
             timers s0 ⊆ timers s ->
             k < length (sockets (fst (closeWithCode c r s0)))
             /\ k ∉ timers (fst (closeWithCode c r s0))).
  { intros c r s0 E1 E2.
    destruct (closeWithCode_frame c r s0) as (_ & _ & _ & F4 & F5).
    rewrite F4, F5, E1. split; [exact Hk|]. intros Hin. apply Ht, E2, Hin. }
  destruct ev; unfold Defensive.step.
  - unfold onTwilioMessage, messageFailed, onMedia, logged.
    repeat case_match; simpl; auto.
  - apply Hc; auto.
  - apply Hc; auto.
  - destruct (inflight s) as [|n]; [auto|].
    unfold startResumed, startFailed, logged.
    destruct (getSignedUrl r) as [es [url|]]; [destruct constructed|]; simpl.
    + rewrite length_app. simpl. split; [lia|].
      intros Hin. apply elem_of_cons in Hin as [-> | Hin]; [lia|auto].
    + apply Hc; auto.
    + apply Hc; auto.
  - case_decide; [|auto]. unfold onElevenLabsOpen; simpl.
    rewrite length_insert. split; [exact Hk|].
    intros Hin. apply list_elem_of_filter in Hin as [_ Hin]. auto.
  - case_decide; [|auto]. unfold onElevenLabsMessage.
    repeat case_match; simpl; auto.
  - case_decide; [|auto]. apply Hc; simpl; auto. apply length_insert.
  - case_decide; [|auto]. apply Hc; simpl; auto. apply length_insert.
  - case_decide; [|auto].
    assert (Hsub : filter (fun t => t <> k0) (timers s) ⊆ timers s).
    { intros t Hin. apply list_elem_of_filter in Hin as [_ Hin]. exact Hin. }
    unfold onConnectionTimeout; simpl.
    destruct (elevenLabsWs s) as [j|]; [|split; [exact Hk|]; intros Hin;
      apply Ht, Hsub, Hin].
    destruct (socket_open _ j); [split; [exact Hk|]; intros Hin;
      apply Ht, Hsub, Hin|].
    apply Hc; auto.
  - destruct leg; simpl; rewrite ?length_insert; auto.
Qed.

Lemma timer_stays_cleared_run (k : nat) (evs : list Event) (s : Session) :
  k < length (sockets s) -> k ∉ timers s ->
  k ∉ timers (fst (run evs s)).
Proof.
  revert s. induction evs as [|ev evs IH]; intros s Hk Ht; simpl; auto.
  destruct (timer_stays_cleared k ev s Hk Ht) as [Hk1 Ht1].
  destruct (Defensive.step reencode_other ev s) as [s1 e1].
  specialize (IH s1 Hk1 Ht1).
  destruct (Defensive.run reencode_other evs s1) as [s2 e2]. exact IH.
Qed.

(** From one event to the next: sockets are never forgotten, the variable
    [elevenLabsWs] once set stays set, and a timer stays pending until the
    socket created with it opens or the timer fires. *)
Lemma wait_step (j : nat) (ev : Event) (s : Session) :
  let s' := fst (step ev s) in
  length (sockets s) <= length (sockets s')
  /\ (elevenLabsWs s <> None -> elevenLabsWs s' <> None)
  /\ (j ∈ timers s -> ends_wait j ev = false -> j ∈ timers s').
Proof.
  intros s'. subst s'.
  assert (Hc : forall c r s0,
             length (sockets s0) = length (sockets s) ->
             elevenLabsWs s0 = elevenLabsWs s ->
             (j ∈ timers s -> ends_wait j ev = false -> j ∈ timers s0) ->
             let s' := fst (closeWithCode c r s0) in
             length (sockets s) <= length (sockets s')
             /\ (elevenLabsWs s <> None -> elevenLabsWs s' <> None)
             /\ (j ∈ timers s -> ends_wait j ev = false -> j ∈ timers s')).
  { intros c r s0 E1 E2 E3 s'. subst s'.
    destruct (closeWithCode_frame c r s0) as (_ & F2 & _ & F4 & F5).
    rewrite F2, F4, F5, E1, E2. auto. }
  assert (Hs : forall s0,
             length (sockets s0) = length (sockets s) ->
             elevenLabsWs s0 = elevenLabsWs s ->
             (j ∈ timers s -> ends_wait j ev = false -> j ∈ timers s0) ->
             length (sockets s) <= length (sockets s0)
             /\ (elevenLabsWs s <> None -> elevenLabsWs s0 <> None)
             /\ (j ∈ timers s -> ends_wait j ev = false -> j ∈ timers s0)).
  { intros s0 E1 E2 E3. rewrite E1, E2. auto. }
  assert (Hf : forall k, ends_wait j ev = false -> k = j -> ev <> ElevenLabsOpen k
               /\ ev <> ConnectionTimeout k).
  { intros k He ->. split; intros ->; simpl in He;
      rewrite Nat.eqb_refl in He; discriminate. }
  destruct ev; unfold Defensive.step.
  - unfold onTwilioMessage, messageFailed, onMedia, logged.
    repeat case_match; simpl;
      first [apply Hc; auto | apply Hs; auto].
  - apply Hc; auto.
  - apply Hc; auto.
  - destruct (inflight s) as [|n]; [apply Hs; auto|].
    unfold startResumed, startFailed, logged.
    destruct (getSignedUrl r) as [es [url|]]; [destruct constructed|]; simpl;
      try (apply Hc; auto).
    rewrite length_app. split; [lia|]. split; [discriminate|].
    intros Hin _. apply list_elem_of_further, Hin.
  - case_decide; [|apply Hs; auto]. unfold onElevenLabsOpen; simpl.
    rewrite length_insert. split; [lia|]. split; [auto|].
    intros Hin He. apply list_elem_of_filter. split; [|exact Hin].
    intros ->. destruct (Hf k He eq_refl) as [Hx _]. congruence.
  - case_decide; [|apply Hs; auto]. unfold onElevenLabsMessage.
    repeat case_match; simpl; apply Hs; auto.
  - case_decide; [|apply Hs; auto]. apply Hc; simpl; auto.
    apply length_insert.
  - case_decide; [|apply Hs; auto]. apply Hc; simpl; auto.
    apply length_insert.
  - case_decide; [|apply Hs; auto].
    assert (Hin' : j ∈ timers s -> ends_wait j (ConnectionTimeout k) = false ->
                   j ∈ filter (fun t => t <> k) (timers s)).
    { intros Hin He. apply list_elem_of_filter. split; [|exact Hin].
      intros ->. destruct (Hf k He eq_refl) as [_ Hx]. congruence. }
    unfold onConnectionTimeout; simpl.
    destruct (elevenLabsWs s) as [i|] eqn:Ei.
    + destruct (socket_open _ i); [apply Hs; simpl; auto|].
      apply Hc; simpl; auto.
    + split; [simpl; lia|]. split; [congruence|exact Hin'].
  - destruct leg; apply Hs; simpl; rewrite ?length_insert; auto.
Qed.

Lemma wait_run (j : nat) (evs : list Event) (s : Session) :
  let s' := fst (run evs s) in
  length (sockets s) <= length (sockets s')
  /\ (elevenLabsWs s <> None -> elevenLabsWs s' <> None)
  /\ (j ∈ timers s -> forallb (fun ev => negb (ends_wait j ev)) evs = true ->
      j ∈ timers s').
Proof.
  revert s. induction evs as [|ev evs IH]; intros s; simpl; [auto|].
  destruct (wait_step j ev s) as (S1 & S2 & S3).
  destruct (Defensive.step reencode_other ev s) as [s1 e1]. cbn [fst] in *.
  destruct (IH s1) as (R1 & R2 & R3).
  destruct (Defensive.run reencode_other evs s1) as [s2 e2]. cbn [fst] in *.
  split; [lia|]. split; [auto|].
  intros Hin Hall. apply andb_true_iff in Hall as [He Hall].
  apply negb_true_iff in He. auto.
Qed.

(** C7: the provider socket is created together with a 10000 ms timer,
    which stays pending until the socket opens or the timer fires.  When
    it fires and [elevenLabsWs] is not open, the callback calls
    [closeWithCode(1006, "ElevenLabs connection timeout")]: a session not
    yet closing sets [isClosing] and calls [close(1006, ...)] on its open
    Twilio socket, a code [ws] refuses, so the call throws out of the
    callback and the Twilio socket is not closed.  When the socket opens
    first, its handler clears the timer, the session does not start
    closing, and no later event makes that timer fire. *)
Theorem connection_timeout (s : Session) (r : FetchResult)
    (es : list Effect) (url : JsVal) (n : nat) (evs : list Event) :
  inflight s = S n -> getSignedUrl r = (es, Some url) ->
  let j := length (sockets s) in
  let res := step (SignedUrlSettled r true) s in
  let s' := fst (run evs (fst res)) in
  snd res = es ++ [NewWebSocket j url; SetTimeout j 10000]
  /\ elevenLabsWs (fst res) = Some j
  /\ sockets (fst res) !! j = Some CONNECTING
  /\ (forallb (fun ev => negb (ends_wait j ev)) evs = true -> j ∈ timers s')
  /\ (j ∈ timers s' -> provider_open s' = false -> isClosing s' = false ->
      let out := step (ConnectionTimeout j) s' in
      isClosing (fst out) = true
      /\ actions (snd out)
         = if is_open (twilio s')
           then [TwilioCloseCall (JNum 1006)
                   (JStr "ElevenLabs connection timeout");
                 UncaughtTypeError]
           else [])
  /\ (let opened := step (ElevenLabsOpen j) s' in
      snd opened = [ClearTimeout j;
                    Console c_log "[II] Connected to Conversational AI."]
      /\ isClosing (fst opened) = isClosing s'
      /\ (forall evs',
            let t := fst (run evs' (fst opened)) in
            (j ∉ timers t) /\ step (ConnectionTimeout j) t = (t, []))).
Proof.
  intros Hn Hg j res s'.
  assert (Hres : res = (set_timers (j :: timers s)
                          (set_sockets (sockets s ++ [CONNECTING])
                             (set_elevenLabsWs (Some j) (set_inflight n s))),
                        es ++ [NewWebSocket j url; SetTimeout j 10000])).
  { subst res j. unfold Defensive.step. rewrite Hn. unfold startResumed.
    rewrite Hg. reflexivity. }
  destruct (wait_run j evs (fst res)) as (G1 & G2 & G3). fold s' in G1, G2, G3.
  assert (Hj : j < length (sockets s')).
  { rewrite Hres in G1. cbn [fst sockets set_timers set_sockets] in G1.
    rewrite length_app in G1. simpl in G1. subst j. lia. }
  assert (Hw : elevenLabsWs s' <> None).
  { apply G2. rewrite Hres. discriminate. }
  split; [rewrite Hres; reflexivity|].
  split; [rewrite Hres; reflexivity|].
  split; [rewrite Hres; apply list_lookup_middle; reflexivity|].
  split; [apply G3; rewrite Hres; apply list_elem_of_here|].
  split.
  - intros Hin Hp Hc out. subst out. unfold Defensive.step.
    case_decide; [|contradiction]. unfold onConnectionTimeout.
    unfold provider_open in Hp. cbn [elevenLabsWs set_timers].
    destruct (elevenLabsWs s') as [i|] eqn:Ei; [|congruence].
    replace (socket_open (set_timers _ s') i) with (socket_open s' i)
      by reflexivity.
    rewrite Hp. split; [apply closeWithCode_sets_flag|].
    rewrite closeWithCode_calls by exact Hc.
    unfold provider_close_call. cbn [elevenLabsWs set_timers]. rewrite Ei.
    replace (socket_open (set_timers _ s') i) with (socket_open s' i)
      by reflexivity.
    rewrite Hp. reflexivity.
  - intros opened. subst opened. unfold Defensive.step. case_decide; [|lia].
    unfold onElevenLabsOpen. cbn [fst snd].
    split; [reflexivity|]. split; [reflexivity|]. intros evs'.
    match goal with |- (j ∉ timers ?x) /\ _ => set (t := x) end.
    assert (Hout : j ∉ timers t).
    { subst t. apply timer_stays_cleared_run; simpl.
      - rewrite length_insert. exact Hj.
      - intros Hin. apply list_elem_of_filter in Hin as [Hne _]. congruence. }
    split; [exact Hout|]. unfold Defensive.step. case_decide; [contradiction|].
    reflexivity.
Qed.


End DefensiveFacts.

(** ** The scenarios, run *)

Section Scenarios.

Local Open Scope list_scope.

(** [active_session] is where a call stands once the provider socket is
    open. *)
Example call_setup_reaches_active :
  fst (Defensive.run no_runtime call_setup Defensive.initial) = active_session
  /\ fst (Lenient.run no_runtime call_setup Lenient.initial) = active_lenient.
Proof. vm_compute. split; reflexivity. Qed.

Lemma closeWithCode_exactly_once_witness :
  count is_twilio_close
    (snd (Defensive.closeAll
            [(JNum 1011, JStr "ElevenLabs WebSocket error");
             (JNum 1000, JStr "Connection closed")] active_session)) = 1.
Proof.
  exact (proj1 (proj2 (proj2
    (closeWithCode_exactly_once no_runtime active_session _ _ _ eq_refl)))).
Defined.

Lemma media_needs_start_and_open_witness :
  let d := fst (Defensive.run no_runtime call_setup Defensive.initial) in
  truthy (Defensive.streamSid d) = true /\ Defensive.provider_open d = true.
Proof.
  apply (proj1 (media_needs_start_and_open no_runtime call_setup
                  (TwilioMessage (Some (media_message (JStr "QUJD")))))).
  vm_compute. discriminate.
Defined.

Lemma provider_audio_forwarding_witness :
  actions (snd (Defensive.onElevenLabsMessage
                  (Some (audio_message (JStr "QUJD"))) active_session))
  = [TwilioSend (media_frame (JStr "SID1") (JStr "QUJD"))].
Proof.
  exact (proj1 (proj2
    (provider_audio_forwarding active_session (audio_message (JStr "QUJD"))
       eq_refl))).
Defined.

(** The same audio event once the session is closing: the stream
    identifier is set and the payload is valid, and nothing is forwarded.
    An empty payload has no character outside the alphabet and is dropped
    too. *)
Lemma provider_audio_dropped_when_closing :
  let s := fst (Defensive.run no_runtime call_stopped Defensive.initial) in
  truthy (Defensive.streamSid s) = true
  /\ Base64.isBase64 "QUJD" = true
  /\ Defensive.step no_runtime
       (ElevenLabsMessage 0 (Some (audio_message (JStr "QUJD")))) s
     = (s, [Console c_error
              "[II] Cannot send message: Twilio connection closed"])
  /\ Base64.all_in_class "" = true
  /\ Defensive.step no_runtime
       (ElevenLabsMessage 0 (Some (audio_message (JStr "")))) active_session
     = (active_session,
        [Console c_error "[II] Audio event missing base64 payload"]).
Proof. vm_compute. repeat split; reflexivity. Qed.

Lemma media_forwarding_witness :
  snd (Defensive.onTwilioMessage no_runtime
         (Some (media_message (JStr "QUJD"))) active_session)
  = [ElevenLabsSend 0 (audio_chunk_frame "QUJD")].
Proof.
  refine (proj1 (proj1 (proj2 (proj2
    (media_forwarding no_runtime active_session 0
       (media_message (JStr "QUJD")) eq_refl eq_refl eq_refl)))
    "QUJD" eq_refl _)).
  discriminate.
Defined.

(** A payload with a character outside the alphabet is not rejected: the
    character is skipped and the rest forwarded.  A payload that passes the
    character-class test but lacks its padding goes out padded. *)
Lemma media_payload_not_validated :
  Base64.isBase64 "QU JD" = false
  /\ snd (Defensive.onTwilioMessage no_runtime
            (Some (media_message (JStr "QU JD"))) active_session)
     = [ElevenLabsSend 0 (audio_chunk_frame "QUJD")]
  /\ Base64.isBase64 "QUJDRA" = true
  /\ snd (Defensive.onTwilioMessage no_runtime
            (Some (media_message (JStr "QUJDRA"))) active_session)
     = [ElevenLabsSend 0 (audio_chunk_frame "QUJDRA==")].
Proof. vm_compute. repeat split; reflexivity. Qed.

(** The provider socket goes away without a close frame, which [ws]
    reports as code 1006: the close call on the Twilio socket throws. *)
Lemma teardown_propagates_code_witness :
  actions
    (snd (Defensive.step no_runtime
            (ElevenLabsClosed 0 (JNum 1006) (JStr "")) active_session))
  = [TwilioCloseCall (JNum 1006) (JStr ""); UncaughtTypeError].
Proof.
  apply (proj1 (proj2
    (teardown_propagates_code no_runtime active_session (JNum 1006) (JStr "")
       eq_refl))).
  simpl. lia.
Defined.

(** The scenario of the specification: the provider socket closes with
    1011, and so does the Twilio socket; a second notification does
    nothing. *)
Example scenario_provider_closes_1011 :
  Defensive.run no_runtime
    [ElevenLabsClosed 0 (JNum 1011) (JStr "");
     ElevenLabsClosed 0 (JNum 1011) (JStr "")] active_session
  = (Defensive.mkSession (JStr "SID1") (Some 0) true CLOSING [CLOSED] [] 0,
     [Console c_log "[II] ElevenLabs disconnected with code";
      Console c_log "[Server] Closing connection with code";
      TwilioCloseCall (JNum 1011) (JStr "");
      Console c_log "[II] ElevenLabs disconnected with code"]).
Proof. vm_compute. reflexivity. Qed.

Lemma signed_url_failure_closes_witness :
  let s := fst (Defensive.run no_runtime
                  [TwilioMessage (Some (start_message (JStr "SID1")))]
                  Defensive.initial) in
  let res := Defensive.step no_runtime
               (SignedUrlSettled (FetchResponse false None) true) s in
  keep is_new_socket (snd res) = []
  /\ keep is_twilio_close (snd res)
     = [TwilioCloseCall (JNum 1011)
          (JStr "Failed to initialize ElevenLabs connection")].
Proof.
  intros s res.
  pose proof (signed_url_failure_closes no_runtime s
                (FetchResponse false None) true 0 eq_refl eq_refl)
    as (H1 & _ & _ & _ & H5).
  split; [exact H1 | exact (H5 eq_refl)].
Defined.

(** The first [start] of a call, a signed URL, and a provider socket that
    has not opened when the timer fires. *)
Lemma connection_timeout_witness :
  let s := fst (Defensive.run no_runtime
                  [TwilioMessage (Some (start_message (JStr "SID1")))]
                  Defensive.initial) in
  let s' := fst (Defensive.step no_runtime (SignedUrlSettled signed_ok true) s)
  in
  let out := Defensive.step no_runtime (ConnectionTimeout 0) s' in
  snd (Defensive.step no_runtime (SignedUrlSettled signed_ok true) s)
  = [NewWebSocket 0 signed_url; SetTimeout 0 10000]
  /\ Defensive.isClosing (fst out) = true
  /\ actions (snd out)
     = [TwilioCloseCall (JNum 1006) (JStr "ElevenLabs connection timeout");
        UncaughtTypeError].
Proof.
  intros s s' out.
  pose proof (connection_timeout no_runtime s signed_ok [] signed_url 0 []
                eq_refl eq_refl) as (H1 & _ & _ & H4 & H5 & _).
  split; [exact H1|].
  exact (H5 (H4 eq_refl) eq_refl eq_refl).
Defined.



Lemma interruption_clears_buffer_witness :
  Defensive.onElevenLabsMessage (Some interruption_message) active_session
  = (active_session, [TwilioSend (clear_frame (JStr "SID1"))]).
Proof.
  exact (proj2
    (interruption_clears_buffer active_session interruption_message eq_refl)).
Defined.

(** An interruption that arrives once the session is closing produces no
    [clear] frame. *)
Lemma interruption_dropped_when_closing :
  let s := fst (Defensive.run no_runtime call_stopped Defensive.initial) in
  Defensive.step no_runtime
    (ElevenLabsMessage 0 (Some interruption_message)) s
  = (s, [Console c_error
           "[II] Cannot send message: Twilio connection closed"]).
Proof. vm_compute. reflexivity. Qed.

(** The decoder looks at the low byte of a character beyond U+00FF: the
    low byte of U+0144 is that of [D]. *)
Example reencode_reads_low_byte :
  Base64.code_units "QUJń" = [81; 85; 74; 324]%N
  /\ Base64.code_units "😀" = [55357; 56832]%N
  /\ Base64.reencode "QUJń" = "QUJD"
  /\ snd (Defensive.onTwilioMessage no_runtime
            (Some (media_message (JStr "QUJń"))) active_session)
     = [ElevenLabsSend 0 (audio_chunk_frame "QUJD")].
Proof. vm_compute. repeat split; reflexivity. Qed.

(** The variant without [closeWithCode] does not ask for a payload: an
    empty one goes out as an empty chunk. *)
Example lenient_forwards_empty_payload :
  snd (Lenient.onTwilioMessage no_runtime
         (Some (media_message (JStr ""))) active_lenient)
  = [ElevenLabsSend 0 (audio_chunk_frame "")].
Proof. reflexivity. Qed.

(** The scenarios of the specification: audio in both directions. *)
Example scenario_media_to_provider :
  snd (Defensive.run no_runtime
         (call_setup ++ [TwilioMessage (Some (media_message (JStr "QUJD")))])
         Defensive.initial)
  = [Console c_log "[Twilio] Stream started with ID:"; FetchSignedUrl;
     NewWebSocket 0 signed_url; SetTimeout 0 10000; ClearTimeout 0;
     Console c_log "[II] Connected to Conversational AI.";
     ElevenLabsSend 0 (audio_chunk_frame "QUJD")].
Proof. vm_compute. reflexivity. Qed.

Example scenario_ping_pong :
  snd (Defensive.step no_runtime
         (ElevenLabsMessage 0
            (Some (JObj [("type", JStr "ping");
                         ("ping_event", JObj [("event_id", JStr "abc123")])])))
         active_session)
  = [ElevenLabsSend 0 (pong_frame (JStr "abc123"))].
Proof. vm_compute. reflexivity. Qed.

End Scenarios.

(** ** The rest of the handlers *)

Section CoverFacts.

Import Defensive.
Local Open Scope list_scope.

Variable reencode_other : JsVal -> option string.

Local Abbreviation step := (Defensive.step reencode_other).
Local Abbreviation run := (Defensive.run reencode_other).

Ltac quiet := intros; reflexivity.

(** [closeWithCode] logs and closes; it does nothing else. *)
Lemma closeWithCode_keep_other (f : Effect -> bool) (code reason : JsVal)
    (s : Session) :
  (forall lvl text, f (Console lvl text) = false) ->
  (forall c r, f (TwilioCloseCall c r) = false) ->
  (forall k c r, f (ElevenLabsCloseCall k c r) = false) ->
  f UncaughtTypeError = false ->
  keep f (snd (closeWithCode code reason s)) = [].
Proof.
  intros H1 H2 H3 H4.
  unfold closeWithCode, close_provider, close_twilio, refusal, socket_open;
    simpl.
  repeat (case_match; simpl in *; simplify_eq);
    rewrite ?keep_cons, ?H1, ?H2, ?H3, ?H4; reflexivity.
Qed.

(** A first [closeWithCode] with a code [ws] accepts. *)
Lemma closeWithCode_calls_accepted (code reason : JsVal) (s : Session) :
  ws_accepts code = true -> isClosing s = false ->
  actions (snd (closeWithCode code reason s))
  = provider_close_call s
    ++ (if is_open (twilio s) then [TwilioCloseCall code reason] else []).
Proof.
  intros Ha Hc. rewrite closeWithCode_calls by exact Hc.
  unfold twilio_close_call. rewrite Ha. reflexivity.
Qed.

(** X1: a [ping] with an [event_id] that finds the socket [elevenLabsWs]
    names open is answered by one [pong] with the same [event_id], sent on
    that socket, and by nothing else; a [ping] whose [event_id] is missing
    or falsy ([0], the empty string) gets no answer and no console line.
    The variant with [closeWithCode] answers only while the Twilio socket
    is open. *)
Theorem ping_answered_with_pong (s : Session) (l : Lenient.Session)
    (k : nat) (message : JsVal) :
  is_str (prop message "type") "ping" = true ->
  elevenLabsWs s = Some k -> socket_open s k = true ->
  Lenient.elevenLabsWs l = Some k -> Lenient.socket_open l k = true ->
  let event_id := optprop (prop message "ping_event") "event_id" in
  let answer :=
    if truthy event_id then [ElevenLabsSend k (pong_frame event_id)] else [] in
  onElevenLabsMessage (Some message) s
  = (s, if is_open (twilio s) then answer
        else [Console c_error
                "[II] Cannot send message: Twilio connection closed"])
  /\ Lenient.onElevenLabsMessage (Some message) l = (l, answer).
Proof.
  intros Ht Hs _ Hl _ event_id answer. subst answer.
  destruct (typed_message _ _ Ht) as (H1 & H2 & H3).
  unfold onElevenLabsMessage, Lenient.onElevenLabsMessage,
    handleElevenLabsMessage, Lenient.handleElevenLabsMessage.
  rewrite H1, H2, H3, Hs, Hl.
  cbn [negb orb is_str String.eqb Ascii.eqb Bool.eqb]. fold event_id.
  destruct (is_open (twilio s)), (truthy event_id); split; reflexivity.
Qed.

(** X2: a provider frame never changes the session and never closes or
    opens a socket, whatever it holds: text that does not parse, a value
    that is no object, an unknown [type]. *)
Theorem provider_frame_is_harmless (k : nat) (parsed : option JsVal)
    (s : Session) :
  let r := step (ElevenLabsMessage k parsed) s in
  fst r = s
  /\ keep is_twilio_close (snd r) = []
  /\ keep is_provider_close (snd r) = []
  /\ keep is_new_socket (snd r) = []
  /\ keep is_fetch (snd r) = [].
Proof.
  intros r. subst r. unfold Defensive.step.
  case_decide; [|repeat split; reflexivity].
  unfold onElevenLabsMessage.
  destruct (is_open (twilio s)); [|repeat split; reflexivity].
  destruct parsed as [m|]; [|repeat split; reflexivity].
  pose proof (fun f H1 H2 H3 =>
                handle_keep_nil f (streamSid s) (elevenLabsWs s) m H1 H2 H3)
    as Hh.
  destruct (handleElevenLabsMessage (streamSid s) (elevenLabsWs s) m)
    as [es []]; cbn [fst snd negb] in *; (split; [reflexivity|]);
    repeat split; rewrite ?keep_app; rewrite Hh by quiet; reflexivity.
Qed.

Lemma protocol_error_handler (parsed : option JsVal) (reason : string)
    (s : Session) :
  protocol_error parsed = Some reason ->
  exists text,
    onTwilioMessage reencode_other parsed s
    = logged c_error text (closeWithCode (JNum 1003) (JStr reason) s).
Proof.
  unfold protocol_error, onTwilioMessage, messageFailed. intros H.
  destruct parsed as [data|]; [|cbn in H; simplify_eq; eexists; reflexivity].
  destruct (negb (truthy data) || negb (truthy (prop data "event")));
    [cbn in H; simplify_eq; eexists; reflexivity|].
  destruct (is_str (prop data "event") "start"); [|cbn in H; discriminate].
  destruct (negb (truthy (prop data "start"))
            || negb (truthy (prop (prop data "start") "streamSid")));
    [cbn in H; simplify_eq; eexists; reflexivity|cbn in H; discriminate].
Qed.

(** X3: a Twilio frame that does not parse, has no [event], or is a [start]
    without [start.streamSid] ends the call: [closeWithCode(1003, reason)]
    runs, so a session not yet closing closes its open Twilio socket with
    1003 and the reason of the failed check; the stream identifier is left
    as it was and no signed URL is fetched.  The variant without
    [closeWithCode] only writes to the console. *)
Theorem protocol_error_closes_1003 (s : Session) (l : Lenient.Session)
    (parsed : option JsVal) (reason : string) :
  protocol_error parsed = Some reason ->
  let r := step (TwilioMessage parsed) s in
  let r' := Lenient.step reencode_other (TwilioMessage parsed) l in
  streamSid (fst r) = streamSid s /\ inflight (fst r) = inflight s
  /\ isClosing (fst r) = true
  /\ keep is_fetch (snd r) = []
  /\ (isClosing s = false ->
      actions (snd r)
      = provider_close_call s
        ++ (if is_open (twilio s)
            then [TwilioCloseCall (JNum 1003) (JStr reason)] else []))
  /\ fst r' = l /\ actions (snd r') = [].
Proof.
  intros H r r'. subst r r'. unfold Defensive.step.
  destruct (protocol_error_handler parsed reason s H) as [text ->].
  destruct (closeWithCode_frame (JNum 1003) (JStr reason) s)
    as (F1 & _ & F3 & _ & _).
  cbn [logged fst snd]. rewrite keep_cons. cbn [is_fetch].
  split; [exact F1|]. split; [exact F3|].
  split; [apply closeWithCode_sets_flag|].
  split; [apply closeWithCode_keep_other; quiet|].
  split.
  { intros Hc. rewrite <- closeWithCode_calls_accepted by auto.
    unfold actions. rewrite keep_cons. reflexivity. }
  unfold Lenient.step, Lenient.onTwilioMessage. unfold protocol_error in H.
  destruct parsed as [data|]; [|split; reflexivity].
  destruct (negb (truthy data) || negb (truthy (prop data "event")));
    [split; reflexivity|].
  destruct (is_str (prop data "event") "start"); [|discriminate].
  destruct (negb (truthy (prop data "start"))
            || negb (truthy (prop (prop data "start") "streamSid")));
    [split; reflexivity|discriminate].
Qed.

(** X4: frames of a kind the handlers do not know.  A Twilio frame whose
    [event] is none of [start], [media], [stop] is ignored with one console
    line in both variants, as long as the event has a text to put on that
    line; when it has none (an object with a property [toString]) the line
    throws, and the [catch] of the handler runs
    [closeWithCode(1003, "Message processing error")], where the variant
    without [closeWithCode] only writes to the console.  A provider message
    whose [type] is none of the four known ones gives nothing at all, not
    even a console line, and leaves the session unchanged. *)
Theorem unknown_frames_ignored (s : Session) (l : Lenient.Session)
    (data message : JsVal) :
  (unhandled_event data = true ->
   (to_string_throws (prop data "event") = false ->
    step (TwilioMessage (Some data)) s
    = (s, [Console c_log "[Twilio] Received unhandled event:"])
    /\ Lenient.step reencode_other (TwilioMessage (Some data)) l
       = (l, [Console c_log "[Twilio] Received unhandled event:"]))
   /\ (to_string_throws (prop data "event") = true ->
       step (TwilioMessage (Some data)) s
       = logged c_error "[Twilio] Error processing message:"
           (closeWithCode (JNum 1003) (JStr "Message processing error") s)
       /\ Lenient.step reencode_other (TwilioMessage (Some data)) l
          = (l, [Console c_error "[Twilio] Error processing message:"])))
  /\ (unknown_type message = true ->
      handleElevenLabsMessage (streamSid s) (elevenLabsWs s) message
      = ([], Returned)
      /\ (is_open (twilio s) = true ->
          onElevenLabsMessage (Some message) s = (s, []))
      /\ Lenient.onElevenLabsMessage (Some message) l = (l, [])).
Proof.
  split.
  - unfold unhandled_event. intros H.
    repeat (apply andb_true_iff in H as [H ?]).
    repeat match goal with
           | Hn : negb _ = true |- _ => apply negb_true_iff in Hn
           end.
    unfold Defensive.step, Lenient.step, onTwilioMessage, messageFailed,
      Lenient.onTwilioMessage.
    repeat match goal with Hx : _ = _ |- _ => rewrite Hx; clear Hx end.
    cbn [negb orb]. split; intros ->; split; reflexivity.
  - unfold unknown_type. intros H.
    repeat (apply andb_true_iff in H as [H ?]).
    repeat match goal with
           | Hn : negb _ = true |- _ => apply negb_true_iff in Hn
           end.
    unfold onElevenLabsMessage, Lenient.onElevenLabsMessage,
      handleElevenLabsMessage, Lenient.handleElevenLabsMessage.
    repeat match goal with Hx : _ = _ |- _ => rewrite Hx; clear Hx end.
    split; [reflexivity|]. split; [|reflexivity].
    intros ->. reflexivity.
Qed.

Lemma event_is (data : JsVal) (lit : string) :
  is_str (prop data "event") lit = true -> lit <> EmptyString ->
  truthy data = true /\ truthy (prop data "event") = true
  /\ prop data "event" = JStr lit.
Proof.
  intros H Hne. apply is_str_true in H.
  destruct data; simpl in *; try discriminate. rewrite H. simpl.
  destruct lit; [congruence|auto].
Qed.

(** X5: a [stop] frame runs [closeWithCode(1000, "Stop event received")]:
    a session not yet closing closes its open provider socket with 1000
    and its open Twilio socket with 1000 and that reason.  The variant
    without [closeWithCode] calls [close()] on the provider socket, open or
    not, and never touches the Twilio socket. *)
Theorem stop_closes_both_legs (s : Session) (l : Lenient.Session)
    (data : JsVal) :
  is_str (prop data "event") "stop" = true ->
  let r := step (TwilioMessage (Some data)) s in
  let r' := Lenient.step reencode_other (TwilioMessage (Some data)) l in
  isClosing (fst r) = true
  /\ (isClosing s = false ->
      actions (snd r)
      = provider_close_call s
        ++ (if is_open (twilio s)
            then [TwilioCloseCall (JNum 1000) (JStr "Stop event received")]
            else []))
  /\ snd r' = match Lenient.elevenLabsWs l with
              | Some k => [ElevenLabsCloseCall k JUndefined JUndefined]
              | None => []
              end
  /\ Lenient.twilio (fst r') = Lenient.twilio l.
Proof.
  intros H r r'. subst r r'.
  destruct (event_is data "stop" H ltac:(discriminate)) as (H1 & H2 & H3).
  unfold Defensive.step, Lenient.step, onTwilioMessage,
    Lenient.onTwilioMessage, Lenient.close_provider.
  rewrite H1, H2, H3.
  cbn [negb orb is_str String.eqb Ascii.eqb Bool.eqb].
  split; [apply closeWithCode_sets_flag|].
  split; [intros Hc; apply closeWithCode_calls_accepted; auto|].
  destruct (Lenient.elevenLabsWs l); split; reflexivity.
Qed.

(** X6: what each loss of a leg does to the other one, in a session not yet
    closing.  When Twilio disconnects or its socket fails, that socket is no
    longer open when the handler runs: no call is made on it, and the
    provider socket, if open, is closed with 1000 whatever code Twilio gave.
    When a provider socket fails, the Twilio socket, if open, is closed with
    1011 "ElevenLabs WebSocket error"; the failed socket is no longer open
    and gets no call, so the provider socket is closed (with 1000) only if
    it is another one and open. *)
Theorem leg_failures_close_the_other_leg (s : Session)
    (code reason : JsVal) :
  isClosing s = false ->
  actions (snd (step (TwilioClosed code reason) s)) = provider_close_call s
  /\ actions (snd (step TwilioError s)) = provider_close_call s
  /\ isClosing (fst (step (TwilioClosed code reason) s)) = true
  /\ isClosing (fst (step TwilioError s)) = true
  /\ (forall k, k < length (sockets s) ->
        let failed := set_sockets (<[k := CLOSING]> (sockets s)) s in
        actions (snd (step (ElevenLabsError k) s))
        = provider_close_call failed
          ++ (if is_open (twilio s)
              then [TwilioCloseCall (JNum 1011)
                      (JStr "ElevenLabs WebSocket error")]
              else [])
        /\ (elevenLabsWs s = Some k -> provider_close_call failed = [])
        /\ isClosing (fst (step (ElevenLabsError k) s)) = true).
Proof.
  intros Hc. unfold Defensive.step.
  unfold onTwilioClose, onTwilioError, onElevenLabsError.
  rewrite !actions_logged. cbn [logged fst].
  split; [|split; [|split; [|split]]].
  - rewrite (closeWithCode_calls _ _ (set_twilio CLOSED s)) by exact Hc.
    apply app_nil_r.
  - rewrite (closeWithCode_calls _ _ (set_twilio CLOSING s)) by exact Hc.
    apply app_nil_r.
  - apply closeWithCode_sets_flag.
  - apply closeWithCode_sets_flag.
  - intros k Hk. cbv zeta.
    set (failed := set_sockets (<[k := CLOSING]> (sockets s)) s).
    case_decide; [|lia]. rewrite ?actions_logged. cbn [logged fst].
    split; [|split].
    + apply (closeWithCode_calls_accepted _ _ failed); auto.
    + intros Hw. unfold provider_close_call, failed, socket_open.
      cbn [elevenLabsWs sockets set_sockets]. rewrite Hw.
      rewrite list_lookup_insert_eq by exact Hk. reflexivity.
    + apply closeWithCode_sets_flag.
Qed.

(** X7: the variant without [closeWithCode] passes nothing on from the
    provider leg: a provider socket that closes or fails makes no call on
    either socket.  The only close call it makes on the Twilio socket is
    the [close()] of a [start] whose signed URL or socket could not be
    had. *)
Theorem lenient_never_propagates (ev : Event) (l : Lenient.Session) :
  (forall k c r, ev = ElevenLabsClosed k c r \/ ev = ElevenLabsError k ->
     actions (snd (Lenient.step reencode_other ev l)) = [])
  /\ (keep is_twilio_close (snd (Lenient.step reencode_other ev l)) <> [] ->
      exists r constructed,
        ev = SignedUrlSettled r constructed
        /\ (snd (getSignedUrl r) = None \/ constructed = false)).
Proof.
  split.
  - intros k c r [-> | ->]; unfold Lenient.step; case_decide; reflexivity.
  - destruct ev; unfold Lenient.step; repeat case_decide;
      try (intros Hne; exfalso; apply Hne; reflexivity).
    + intros Hne; exfalso; apply Hne.
      unfold Lenient.onTwilioMessage, Lenient.onMedia, Lenient.close_provider.
      repeat case_match; reflexivity.
    + intros Hne; exfalso; apply Hne.
      unfold Lenient.onTwilioClose, Lenient.close_provider.
      case_match; reflexivity.
    + intros Hne; exfalso; apply Hne.
      unfold Lenient.onTwilioError, Lenient.close_provider.
      case_match; reflexivity.
    + destruct (Lenient.inflight l);
        [intros Hne; exfalso; apply Hne; reflexivity|].
      unfold Lenient.startResumed. intros Hne. exists r, constructed.
      split; [reflexivity|].
      pose proof (getSignedUrl_keep_nil is_twilio_close r
                    (fun _ _ => eq_refl)) as Hg.
      destruct (getSignedUrl r) as [es [url|]]; [|left; reflexivity].
      destruct constructed; [|right; reflexivity].
      exfalso. apply Hne. cbn [fst snd] in *. rewrite keep_app, Hg. reflexivity.
    + intros Hne; exfalso; apply Hne.
      unfold Lenient.onElevenLabsMessage.
      pose proof (handle_keep_nil is_twilio_close (Lenient.streamSid l)
                    (Lenient.elevenLabsWs l)) as Hh.
      destruct parsed as [m|]; [|reflexivity].
      specialize (Hh m ltac:(quiet) ltac:(quiet) ltac:(quiet)).
      change (Lenient.handleElevenLabsMessage (Lenient.streamSid l)
                (Lenient.elevenLabsWs l) m)
        with (handleElevenLabsMessage (Lenient.streamSid l)
                (Lenient.elevenLabsWs l) m).
      destruct (handleElevenLabsMessage _ _ m) as [es []];
        cbn [fst snd] in *; rewrite ?keep_app, Hh; reflexivity.
    + destruct leg; intros Hne; exfalso; apply Hne; reflexivity.
Qed.

(** [elevenLabsWs] always names the socket created last. *)
Lemma newest_initial : newest initial.
Proof. reflexivity. Qed.

Lemma newest_closeWithCode (code reason : JsVal) (s s0 : Session) :
  elevenLabsWs s0 = elevenLabsWs s ->
  length (sockets s0) = length (sockets s) ->
  newest s -> newest (fst (closeWithCode code reason s0)).
Proof.
  intros E1 E2 N.
  destruct (closeWithCode_frame code reason s0) as (_ & F2 & _ & _ & F5).
  unfold newest in *. rewrite F2, F5, E1, E2. exact N.
Qed.

Lemma newest_step (ev : Event) (s : Session) :
  newest s -> newest (fst (step ev s)).
Proof.
  intros N. destruct ev; unfold Defensive.step; repeat case_decide;
    try exact N;
    try (apply (newest_closeWithCode _ _ s); auto; simpl;
         rewrite ?length_insert; reflexivity).
  - unfold onTwilioMessage, onMedia, logged.
    repeat case_match; simpl; try exact N;
      apply (newest_closeWithCode _ _ s); auto.
  - destruct (inflight s) as [|n]; [exact N|].
    unfold startResumed, startFailed, logged.
    destruct (getSignedUrl r) as [es [url|]]; [destruct constructed|]; simpl;
      try (apply (newest_closeWithCode _ _ s); auto).
    unfold newest; simpl. rewrite length_app, Nat.add_1_r. reflexivity.
  - unfold onElevenLabsOpen, newest in *; simpl. rewrite length_insert.
    exact N.
  - unfold onElevenLabsMessage. repeat case_match; exact N.
  - unfold onConnectionTimeout; simpl. repeat case_match; try exact N.
    apply (newest_closeWithCode _ _ s); auto.
  - destruct leg; unfold newest in *; simpl; rewrite ?length_insert; exact N.
Qed.

Lemma newest_run (evs : list Event) (s : Session) :
  newest s -> newest (fst (run evs s)).
Proof.
  revert s. induction evs as [|ev evs IH]; intros s N; simpl; auto.
  pose proof (newest_step ev s N) as N1.
  destruct (Defensive.step reencode_other ev s) as [s1 e1].
  specialize (IH s1 N1).
  destruct (Defensive.run reencode_other evs s1) as [s2 e2]. exact IH.
Qed.

Lemma elem_of_keep (f : Effect -> bool) (e : Effect) (es : list Effect) :
  e ∈ keep f es <-> f e = true /\ e ∈ es.
Proof. exact (list_elem_of_filter (fun x => f x = true) es e). Qed.

Lemma keep_nil_absent (f : Effect -> bool) (e : Effect) (es : list Effect) :
  keep f es = [] -> f e = true -> e ∉ es.
Proof.
  intros Hk Hf Hin. assert (Hin' : e ∈ keep f es) by (apply elem_of_keep; auto).
  rewrite Hk in Hin'. inversion Hin'.
Qed.

(** The frames [handleElevenLabsMessage] sends to Twilio. *)
Lemma handle_twilio_frames (sid : JsVal) (ws : option nat)
    (message frame : JsVal) :
  TwilioSend frame ∈ fst (handleElevenLabsMessage sid ws message) ->
  frame = clear_frame sid
  \/ exists payload,
       frame = media_frame sid payload /\ truthy sid = true
       /\ Base64.isBase64 (ToString payload) = true.
Proof.
  unfold handleElevenLabsMessage.
  repeat case_match; cbn [fst]; intros Hin;
    repeat (apply elem_of_cons in Hin as [Hin | Hin]; [simplify_eq|]);
    try inversion Hin.
  - right. eexists. repeat split.
    + match goal with H : negb (truthy sid) = false |- _ =>
        apply negb_false_iff in H; exact H end.
    + match goal with H : negb (Base64.isBase64 _) = false |- _ =>
        apply negb_false_iff in H; exact H end.
  - left. reflexivity.
Qed.

Lemma step_twilio_send (ev : Event) (s : Session) (frame : JsVal) :
  TwilioSend frame ∈ snd (step ev s) ->
  is_open (twilio s) = true /\ 0 < length (sockets s)
  /\ exists message,
       TwilioSend frame
       ∈ fst (handleElevenLabsMessage (streamSid s) (elevenLabsWs s) message).
Proof.
  assert (Hq : forall es, keep is_twilio_send es = [] ->
                          TwilioSend frame ∈ es -> False).
  { intros es Hk Hin.
    exact (keep_nil_absent is_twilio_send (TwilioSend frame) es Hk eq_refl Hin). }
  assert (Hc : forall c r s0,
             TwilioSend frame ∈ snd (closeWithCode c r s0) -> False).
  { intros c r s0. apply Hq. apply closeWithCode_keep_other; quiet. }
  assert (Hl : forall lvl text c r s0,
             TwilioSend frame ∈ snd (logged lvl text (closeWithCode c r s0)) ->
             False).
  { intros lvl text c r s0. apply Hq. unfold logged; simpl.
    rewrite keep_cons. apply closeWithCode_keep_other; quiet. }
  assert (Hno : forall es,
             keep is_twilio_send es = []
             \/ (exists lvl text c r s0,
                   es = snd (logged lvl text (closeWithCode c r s0)))
             \/ (exists c r s0, es = snd (closeWithCode c r s0)) ->
             TwilioSend frame ∈ es -> False).
  { intros es [Hk | [(lvl & text & c & r & s0 & ->) | (c & r & s0 & ->)]];
      [apply Hq, Hk | apply Hl | apply Hc]. }
  destruct ev; unfold Defensive.step; repeat case_decide;
    try (intros Hin; exfalso; revert Hin; apply Hno; left; reflexivity);
    try (intros Hin; exfalso; revert Hin; apply Hno; right; left;
         do 5 eexists; reflexivity).
  - intros Hin. exfalso. revert Hin.
    unfold onTwilioMessage, onMedia.
    repeat case_match; apply Hno;
      first [left; reflexivity
            | right; left; do 5 eexists; reflexivity
            | right; right; do 3 eexists; reflexivity].
  - intros Hin. exfalso. revert Hin.
    destruct (inflight s) as [|n]; [apply Hno; left; reflexivity|].
    unfold startResumed, startFailed.
    pose proof (getSignedUrl_keep_nil is_twilio_send r ltac:(quiet)) as Hg.
    destruct (getSignedUrl r) as [es [url|]]; [destruct constructed|];
      cbn [fst snd] in *; intros Hin;
      apply elem_of_app in Hin as [Hin | Hin];
      try (exact (Hq es Hg Hin)); revert Hin; apply Hno;
      first [left; reflexivity | right; left; do 5 eexists; reflexivity].
  - unfold onElevenLabsMessage.
    destruct (is_open (twilio s)) eqn:Ho; cbn [negb];
      [|intros Hin; exfalso; revert Hin; apply Hno; left; reflexivity].
    destruct parsed as [m|];
      [|intros Hin; exfalso; revert Hin; apply Hno; left; reflexivity].
    intros Hin. split; [reflexivity|]. split; [lia|]. exists m.
    destruct (handleElevenLabsMessage (streamSid s) (elevenLabsWs s) m)
      as [es []]; cbn [fst snd] in *; [exact Hin|].
    apply elem_of_app in Hin as [Hin | Hin]; [exact Hin|].
    exfalso. revert Hin. apply Hno. left. reflexivity.
  - intros Hin. exfalso. revert Hin. unfold onConnectionTimeout.
    repeat case_match; apply Hno;
      first [left; reflexivity
            | right; right; do 3 eexists; reflexivity].
  - destruct leg; intros Hin; exfalso; revert Hin; apply Hno; left;
      reflexivity.
Qed.

(** X8: Twilio is sent a frame only while its socket is open, and every
    frame a session sends it, [media] or [clear], carries the stream
    identifier of a [start] frame: the identifier is never [null] when a
    frame goes out, although the [interruption] case does not look at it. *)
Theorem twilio_frames_carry_stream_id (evs : list Event) (ev : Event)
    (frame : JsVal) :
  let s := fst (run evs initial) in
  TwilioSend frame ∈ snd (step ev s) ->
  is_open (twilio s) = true
  /\ truthy (streamSid s) = true
  /\ prop frame "streamSid" = streamSid s
  /\ (is_str (prop frame "event") "media" = true
      \/ is_str (prop frame "event") "clear" = true).
Proof.
  intros s Hin.
  destruct (step_twilio_send ev s frame Hin) as (Ho & Hl & m & Hm).
  split; [exact Ho|].
  assert (Ht : truthy (streamSid s) = true).
  { destruct (wf_run reencode_other evs initial wf_initial) as (W1 & _).
    apply W1. right.
    pose proof (newest_run evs initial newest_initial) as N.
    unfold s in Hl. unfold newest in N. rewrite N.
    destruct (length (sockets _)); [lia|discriminate]. }
  split; [exact Ht|].
  apply handle_twilio_frames in Hm as [-> | (p & -> & _ & _)];
    (split; [reflexivity|]); [right | left]; reflexivity.
Qed.

(** What one event does to [streamSid], to the pending fetches and to the
    sockets. *)
Lemma step_accounts (ev : Event) (s : Session) :
  let r := step ev s in
  let fetches := if fetching_start ev then 1 else 0 in
  streamSid (fst r)
  = match start_sid ev with Some v => v | None => streamSid s end
  /\ count is_fetch (snd r) = fetches
  /\ count is_new_socket (snd r) + inflight (fst r) <= fetches + inflight s.
Proof.
  assert (Hc : forall c r s0 v,
             streamSid s0 = v -> inflight s0 <= inflight s ->
             streamSid (fst (closeWithCode c r s0)) = v
             /\ count is_fetch (snd (closeWithCode c r s0)) = 0
             /\ count is_new_socket (snd (closeWithCode c r s0))
                + inflight (fst (closeWithCode c r s0)) <= 0 + inflight s).
  { intros c r s0 v E1 E2.
    destruct (closeWithCode_frame c r s0) as (F1 & _ & F3 & _ & _).
    unfold count.
    rewrite !closeWithCode_keep_other by quiet. rewrite F1, F3. simpl.
    split; [exact E1|]. split; [reflexivity|lia]. }
  assert (Hl : forall lvl text c r s0 v,
             streamSid s0 = v -> inflight s0 <= inflight s ->
             let x := logged lvl text (closeWithCode c r s0) in
             streamSid (fst x) = v
             /\ count is_fetch (snd x) = 0
             /\ count is_new_socket (snd x) + inflight (fst x)
                <= 0 + inflight s).
  { intros lvl text c r s0 v E1 E2 x. subst x. unfold logged, count. simpl.
    rewrite !keep_cons. simpl. apply (Hc c r s0 v E1 E2). }
  intros r fetches. subst r fetches.
  destruct ev; unfold Defensive.step, fetching_start; cbn [start_sid];
    repeat case_decide;
    try (apply Hl; [reflexivity|simpl; lia]);
    try (repeat split; simpl; lia).
  - unfold onTwilioMessage, messageFailed, onMedia.
    destruct parsed as [data|]; [|apply Hl; [reflexivity|simpl; lia]].
    destruct (truthy data); cbn [negb orb andb];
      [|apply Hl; [reflexivity|simpl; lia]].
    destruct (truthy (prop data "event")); cbn [negb orb andb];
      [|apply Hl; [reflexivity|simpl; lia]].
    destruct (is_str (prop data "event") "start"); cbn [andb].
    + destruct (truthy (prop data "start")); cbn [negb orb andb];
        [|apply Hl; [reflexivity|simpl; lia]].
      destruct (truthy (prop (prop data "start") "streamSid"));
        cbn [negb orb andb]; [|apply Hl; [reflexivity|simpl; lia]].
      destruct (to_string_throws (prop (prop data "start") "streamSid"));
        cbn [negb]; [apply Hl; [reflexivity|simpl; lia]|].
      repeat split. simpl. lia.
    + repeat case_match;
        try (apply Hc; [reflexivity|simpl; lia]);
        try (apply Hl; [reflexivity|simpl; lia]);
        repeat split; simpl; lia.
  - destruct (inflight s) as [|n] eqn:En; [repeat split; simpl; lia|].
    unfold startResumed, startFailed.
    pose proof (getSignedUrl_keep_nil is_fetch r ltac:(quiet)) as G1.
    pose proof (getSignedUrl_keep_nil is_new_socket r ltac:(quiet)) as G2.
    destruct (getSignedUrl r) as [es [url|]]; [destruct constructed|];
      cbn [fst snd] in *; unfold count; rewrite !keep_app, G1, G2;
      try (destruct (Hl c_error
                       "[Server] Failed to initialize ElevenLabs connection:"
                       (JNum 1011)
                       (JStr "Failed to initialize ElevenLabs connection")
                       (set_inflight n s) (streamSid s) eq_refl
                       ltac:(simpl; lia))
             as (L1 & L2 & L3); unfold count in *; simpl in *;
           repeat split; auto; lia).
  - unfold onElevenLabsMessage.
    pose proof (fun m f H1 H2 H3 =>
                  handle_keep_nil f (streamSid s) (elevenLabsWs s) m H1 H2 H3)
      as Hh.
    destruct (is_open (twilio s)); [|repeat split; simpl; lia].
    destruct parsed as [m|]; [|repeat split; simpl; lia]. specialize (Hh m).
    destruct (handleElevenLabsMessage (streamSid s) (elevenLabsWs s) m)
      as [es []]; cbn [fst snd negb] in *; unfold count;
      rewrite ?keep_app; rewrite !Hh by quiet; repeat split; simpl; lia.
  - unfold onConnectionTimeout. cbn [elevenLabsWs set_timers].
    destruct (elevenLabsWs s) as [j|]; [|repeat split; simpl; lia].
    destruct (socket_open _ j); [repeat split; simpl; lia|].
    apply Hc; [reflexivity|simpl; lia].
  - destruct leg; repeat split; simpl; lia.
Qed.

(** X9: [streamSid] is written by valid [start] frames only.  After any
    run of events it is the identifier of the last such frame: a later
    [start] overwrites it, and nothing ever sets it back to [null]. *)
Theorem streamSid_is_last_start (evs : list Event) (s : Session) :
  streamSid (fst (run evs s)) = last_sid evs (streamSid s)
  /\ (truthy (streamSid s) = true -> truthy (streamSid (fst (run evs s))) = true).
Proof.
  assert (Hsid : forall ev v, start_sid ev = Some v -> truthy v = true).
  { intros ev v. unfold start_sid. repeat case_match; try discriminate.
    intros [= <-].
    match goal with H : _ && _ = true |- _ =>
      apply andb_true_iff in H as [_ H]; exact H end. }
  revert s. induction evs as [|ev evs IH]; intros s; [split; auto|].
  simpl. destruct (step_accounts ev s) as (E & _ & _).
  destruct (Defensive.step reencode_other ev s) as [s1 e1]. cbn [fst] in E.
  destruct (IH s1) as [IH1 IH2].
  destruct (Defensive.run reencode_other evs s1) as [s2 e2]. cbn [fst] in *.
  split; [rewrite IH1, E; reflexivity|].
  intros Ht. apply IH2. rewrite E.
  destruct (start_sid ev) as [v|] eqn:Ev; [exact (Hsid ev v Ev)|exact Ht].
Qed.

(** X10: a signed URL is fetched once per [start] frame that passes the
    guards of the handler and whose identifier has a text, and for nothing
    else; a [start] frame whose identifier has none (an object with a
    property [toString]) fails on the console line before the fetch.  A
    provider socket is created only with the result of a fetch: the
    sockets created never outnumber the fetches. *)
Theorem sockets_follow_starts (evs : list Event) (s : Session) :
  count is_fetch (snd (run evs s)) = starts evs
  /\ count is_new_socket (snd (run evs s)) + inflight (fst (run evs s))
     <= starts evs + inflight s.
Proof.
  revert s. induction evs as [|ev evs IH]; intros s;
    [split; [reflexivity|]; unfold starts, count; cbn; lia|].
  simpl. destruct (step_accounts ev s) as (_ & E2 & E3).
  destruct (Defensive.step reencode_other ev s) as [s1 e1]. cbn [fst snd] in *.
  destruct (IH s1) as [IH1 IH2].
  destruct (Defensive.run reencode_other evs s1) as [s2 e2]. cbn [fst snd] in *.
  rewrite !count_app, IH1, E2.
  assert (Hs : starts (ev :: evs)
               = (if fetching_start ev then 1 else 0) + starts evs).
  { unfold starts. destruct (fetching_start ev) eqn:Ev.
    - rewrite filter_cons_True by exact Ev. reflexivity.
    - rewrite filter_cons_False by (rewrite Ev; discriminate). reflexivity. }
  rewrite Hs. split; lia.
Qed.

Lemma closing_provider_closes (code reason : JsVal) (s : Session) :
  keep is_provider_close (snd (closeWithCode code reason s))
  = if isClosing s then [] else provider_close_call s.
Proof.
  destruct (isClosing s) eqn:Hc.
  - rewrite closeWithCode_closing by exact Hc. reflexivity.
  - apply closeWithCode_provider_closes, Hc.
Qed.

(** X11: teardown does not cancel the connection timer.  [closeWithCode]
    leaves a pending timer pending and makes no [clearTimeout] call; when
    the timer of a session that has been torn down fires, after whatever
    other events, its callback makes no call on any socket. *)
Theorem timer_survives_teardown (evs evs' : list Event) (k : nat)
    (code reason : JsVal) :
  let s := fst (run evs initial) in
  let s' := fst (closeWithCode code reason s) in
  timers s' = timers s
  /\ keep is_clear_timeout (snd (closeWithCode code reason s)) = []
  /\ actions (snd (step (ConnectionTimeout k) (fst (run evs' s')))) = [].
Proof.
  intros s s'.
  destruct (closeWithCode_frame code reason s) as (_ & _ & _ & F4 & _).
  split; [exact F4|]. split; [apply closeWithCode_keep_other; quiet|].
  assert (W : wf s) by (apply wf_run, wf_initial).
  assert (N : newest s) by (apply newest_run, newest_initial).
  assert (W' : wf s') by (apply (wf_closeWithCode _ _ s); auto).
  assert (N' : newest s') by (apply (newest_closeWithCode _ _ s); auto).
  assert (C' : isClosing s' = true) by apply closeWithCode_sets_flag.
  pose proof (wf_run reencode_other evs' s' W') as (_ & _ & W3).
  pose proof (newest_run evs' s' N') as N3.
  pose proof (run_keeps_closing reencode_other evs' s' C') as C3.
  set (t := fst (run evs' s')) in *.
  unfold Defensive.step. case_decide as Hin; [|reflexivity].
  apply W3 in Hin. unfold newest in N3.
  unfold onConnectionTimeout. cbn [elevenLabsWs set_timers]. rewrite N3.
  destruct (length (sockets t)) as [|j]; [lia|].
  destruct (socket_open _ j); [reflexivity|].
  rewrite closeWithCode_closing by exact C3. reflexivity.
Qed.

(** X12: the connection timeout never closes the provider socket.  Its
    callback tears the session down only when [elevenLabsWs] is not open,
    and [closeWithCode] closes [elevenLabsWs] only when it is open: the
    socket that failed to open is left as it is. *)
Theorem timeout_leaves_provider_socket (k : nat) (s : Session) :
  let r := step (ConnectionTimeout k) s in
  keep is_provider_close (snd r) = []
  /\ sockets (fst r) = sockets s /\ elevenLabsWs (fst r) = elevenLabsWs s.
Proof.
  intros r. subst r. unfold Defensive.step.
  case_decide; [|repeat split; reflexivity].
  unfold onConnectionTimeout. cbn [elevenLabsWs set_timers].
  destruct (elevenLabsWs s) as [j|] eqn:Ej;
    [|repeat split; simpl; congruence].
  destruct (socket_open _ j) eqn:Ho; [repeat split; simpl; congruence|].
  set (s0 := set_timers _ s) in *.
  destruct (closeWithCode_frame (JNum 1006)
              (JStr "ElevenLabs connection timeout") s0)
    as (_ & F2 & _ & _ & _).
  split; [|split; [|rewrite F2; exact Ej]].
  - rewrite closing_provider_closes. unfold provider_close_call.
    replace (elevenLabsWs s0) with (Some j) by (symmetry; exact Ej).
    rewrite Ho. destruct (isClosing s0); reflexivity.
  - unfold closeWithCode, close_provider, close_twilio.
    replace (elevenLabsWs (set_isClosing true s0)) with (Some j)
      by (symmetry; exact Ej).
    replace (socket_open (set_isClosing true s0) j) with false
      by (symmetry; exact Ho).
    repeat case_match; simplify_eq; reflexivity.
Qed.

Lemma step_provider_close (ev : Event) (s : Session) :
  keep is_provider_close (snd (step ev s)) = []
  \/ exists j,
       elevenLabsWs s = Some j /\ isClosing s = false
       /\ keep is_provider_close (snd (step ev s))
          = [ElevenLabsCloseCall j (JNum 1000) (JStr "Closing normally")].
Proof.
  assert (Hc : forall c r s0,
             elevenLabsWs s0 = elevenLabsWs s -> isClosing s0 = isClosing s ->
             keep is_provider_close (snd (closeWithCode c r s0)) = []
             \/ exists j,
                  elevenLabsWs s = Some j /\ isClosing s = false
                  /\ keep is_provider_close (snd (closeWithCode c r s0))
                     = [ElevenLabsCloseCall j (JNum 1000)
                          (JStr "Closing normally")]).
  { intros c r s0 E1 E2. rewrite closing_provider_closes, E2.
    unfold provider_close_call. rewrite E1.
    destruct (isClosing s); [left; reflexivity|].
    destruct (elevenLabsWs s) as [j|]; [|left; reflexivity].
    destruct (socket_open s0 j); [right; eauto|left; reflexivity]. }
  assert (Hl : forall lvl text c r s0,
             elevenLabsWs s0 = elevenLabsWs s -> isClosing s0 = isClosing s ->
             keep is_provider_close
               (snd (logged lvl text (closeWithCode c r s0))) = []
             \/ exists j,
                  elevenLabsWs s = Some j /\ isClosing s = false
                  /\ keep is_provider_close
                       (snd (logged lvl text (closeWithCode c r s0)))
                     = [ElevenLabsCloseCall j (JNum 1000)
                          (JStr "Closing normally")]).
  { intros lvl text c r s0 E1 E2. unfold logged; simpl. rewrite keep_cons.
    apply Hc; auto. }
  destruct ev; unfold Defensive.step; repeat case_decide;
    try (left; reflexivity); try (apply Hl; reflexivity).
  - unfold onTwilioMessage, onMedia.
    repeat case_match; try (left; reflexivity);
      first [apply Hl; reflexivity | apply Hc; reflexivity].
  - destruct (inflight s) as [|n]; [left; reflexivity|].
    unfold startResumed, startFailed.
    pose proof (getSignedUrl_keep_nil is_provider_close r ltac:(quiet)) as Hg.
    destruct (getSignedUrl r) as [es [url|]]; [destruct constructed|];
      cbn [fst snd] in *; rewrite keep_app, Hg; cbn [app];
      first [left; reflexivity | apply Hl; reflexivity].
  - unfold onElevenLabsMessage.
    pose proof (fun m => handle_keep_nil is_provider_close (streamSid s)
                  (elevenLabsWs s) m ltac:(quiet) ltac:(quiet) ltac:(quiet))
      as Hh.
    left. destruct (is_open (twilio s)); [|reflexivity].
    destruct parsed as [m|]; [|reflexivity]. specialize (Hh m).
    destruct (handleElevenLabsMessage (streamSid s) (elevenLabsWs s) m)
      as [es []]; cbn [fst snd negb] in *; rewrite ?keep_app, Hh; reflexivity.
  - unfold onConnectionTimeout. cbn [elevenLabsWs set_timers].
    repeat case_match; try (left; reflexivity). apply Hc; simpl; auto.
  - destruct leg; left; reflexivity.
Qed.

(** X13: the only provider socket a session ever closes is the one created
    last, the one [elevenLabsWs] names, and always with 1000 "Closing
    normally": a socket an earlier [start] frame created is never closed by
    the session. *)
Theorem only_newest_socket_is_closed (evs : list Event) (ev : Event)
    (k : nat) (code reason : JsVal) :
  let s := fst (run evs initial) in
  ElevenLabsCloseCall k code reason ∈ snd (step ev s) ->
  S k = length (sockets s)
  /\ code = JNum 1000 /\ reason = JStr "Closing normally"
  /\ isClosing s = false.
Proof.
  intros s Hin.
  assert (Hk : ElevenLabsCloseCall k code reason
               ∈ keep is_provider_close (snd (step ev s)))
    by (apply elem_of_keep; auto).
  destruct (step_provider_close ev s) as [E | (j & Ej & Hc & E)];
    rewrite E in Hk; [inversion Hk|].
  apply list_elem_of_singleton in Hk. injection Hk as -> -> ->.
  pose proof (newest_run evs initial newest_initial) as N.
  unfold newest in N. fold s in N. rewrite Ej in N.
  destruct (length (sockets s)); [discriminate|]. injection N as ->. auto.
Qed.


(** X15: [Buffer.from(s, "base64").toString("base64")] normalises: doing
    it twice is doing it once, and the strings it leaves unchanged are
    exactly the canonical ones.  So a [media] payload reaches the provider
    unchanged if and only if it is canonical base64. *)
Theorem reencode_fixes_canonical (text : string) :
  Base64.reencode (Base64.reencode text) = Base64.reencode text
  /\ (Base64.reencode text = text <-> Base64.canonical text = true).
Proof.
  split; [apply reencode_canonical, reencode_is_canonical|]. split.
  - intros E. rewrite <- E. apply reencode_is_canonical.
  - apply reencode_canonical.
Qed.

(** X16: every failure between the [start] frame and the provider socket
    ends in the same [catch]: a response body that is not JSON or is
    [null], or [new WebSocket] throwing on the URL it is given, as much as a
    failed request.  No socket is kept, [elevenLabsWs] is as before, and
    [closeWithCode(1011, ...)] runs.  A response without [signed_url] does
    not fail by itself: the URL handed to [new WebSocket] is then
    [undefined]. *)
Theorem start_failure_closes_1011 (s : Session) (r : FetchResult)
    (constructed : bool) (n : nat) :
  inflight s = S n ->
  (snd (getSignedUrl r) = None \/ constructed = false ->
   let res := step (SignedUrlSettled r constructed) s in
   keep is_new_socket (snd res) = []
   /\ elevenLabsWs (fst res) = elevenLabsWs s
   /\ isClosing (fst res) = true
   /\ (isClosing s = false ->
       actions (snd res)
       = provider_close_call s
         ++ (if is_open (twilio s)
             then [TwilioCloseCall (JNum 1011)
                     (JStr "Failed to initialize ElevenLabs connection")]
             else [])))
  /\ (forall data, nullish data = false ->
        snd (step (SignedUrlSettled (FetchResponse true (Some data)) true) s)
        = [NewWebSocket (length (sockets s)) (prop data "signed_url");
           SetTimeout (length (sockets s)) 10000]).
Proof.
  intros Hn. split.
  - intros Hf res. subst res. unfold Defensive.step. rewrite Hn.
    pose proof (getSignedUrl_keep_nil is_new_socket r ltac:(quiet)) as G1.
    pose proof (getSignedUrl_keep_nil (fun e => negb (is_console e)) r
                  ltac:(quiet)) as G2.
    assert (E : startResumed r constructed (set_inflight n s)
                = (fst (startFailed (set_inflight n s)),
                   fst (getSignedUrl r) ++ snd (startFailed (set_inflight n s)))).
    { unfold startResumed.
      destruct (getSignedUrl r) as [es [url|]]; [|reflexivity].
      destruct constructed; [|reflexivity].
      destruct Hf as [Hf | Hf]; discriminate Hf. }
    rewrite E. cbn [fst snd]. unfold startFailed.
    set (s0 := set_inflight n s).
    destruct (closeWithCode_frame (JNum 1011)
                (JStr "Failed to initialize ElevenLabs connection") s0)
      as (_ & F2 & _ & _ & _).
    cbn [logged fst snd]. split; [|split; [|split]].
    + rewrite keep_app, G1, keep_cons. cbn [is_new_socket app].
      apply closeWithCode_keep_other; quiet.
    + rewrite F2. reflexivity.
    + apply closeWithCode_sets_flag.
    + intros Hc. unfold actions. rewrite keep_app, G2, keep_cons.
      cbn [is_console negb app].
      apply (closeWithCode_calls_accepted _ _ s0); auto.
  - intros data Hd. unfold Defensive.step. rewrite Hn.
    unfold startResumed, getSignedUrl. cbn [negb]. rewrite Hd. reflexivity.
Qed.




(** X18: a [media] frame can do one thing only, send one audio chunk to
    the provider.  Whatever its payload, and whatever [Buffer.from] makes of
    a payload that is no string, it leaves the session as it was, closes
    nothing and sends Twilio nothing, in both variants; a payload the
    runtime rejects costs a console line, not the call. *)
Theorem media_frame_is_harmless (s : Session) (l : Lenient.Session)
    (data : JsVal) :
  is_str (prop data "event") "media" = true ->
  let r := step (TwilioMessage (Some data)) s in
  let r' := Lenient.step reencode_other (TwilioMessage (Some data)) l in
  fst r = s /\ fst r' = l
  /\ (actions (snd r) = [] \/ exists k chunk,
        actions (snd r) = [ElevenLabsSend k (audio_chunk_frame chunk)])
  /\ (actions (snd r') = [] \/ exists k chunk,
        actions (snd r') = [ElevenLabsSend k (audio_chunk_frame chunk)]).
Proof.
  intros H r r'. subst r r'.
  destruct (event_is data "media" H ltac:(discriminate)) as (H1 & H2 & H3).
  unfold Defensive.step, Lenient.step, onTwilioMessage,
    Lenient.onTwilioMessage.
  rewrite H1, H2, H3. cbn [negb orb is_str String.eqb Ascii.eqb Bool.eqb].
  unfold onMedia, Lenient.onMedia.
  split; [repeat case_match; reflexivity|].
  split; [repeat case_match; reflexivity|].
  split; repeat case_match; cbn [snd];
    first [left; reflexivity | right; eexists _, _; reflexivity].
Qed.

Lemma lenient_trigger_step (ev : Event) (l : Lenient.Session) (k : nat) :
  lenient_trigger ev = true -> Lenient.elevenLabsWs l = Some k ->
  let r := Lenient.step reencode_other ev l in
  Lenient.elevenLabsWs (fst r) = Some k
  /\ actions (snd r) = [ElevenLabsCloseCall k JUndefined JUndefined].
Proof.
  intros Ht Hk r. subst r.
  destruct ev as [[data|]| | | | | | | | |]; try discriminate Ht;
    unfold Lenient.step.
  - cbn [lenient_trigger] in Ht.
    destruct (event_is data "stop" Ht ltac:(discriminate)) as (H1 & H2 & H3).
    unfold Lenient.onTwilioMessage, Lenient.close_provider.
    rewrite H1, H2, H3, Hk. split; [exact Hk|reflexivity].
  - unfold Lenient.onTwilioClose, Lenient.close_provider.
    cbn [Lenient.elevenLabsWs Lenient.set_twilio]. rewrite Hk.
    split; [exact Hk|reflexivity].
  - unfold Lenient.onTwilioError, Lenient.close_provider.
    cbn [Lenient.elevenLabsWs Lenient.set_twilio]. rewrite Hk.
    split; [exact Hk|reflexivity].
Qed.

(** X19: the variant without [closeWithCode] has no once-only guard.  Each
    [stop] frame and each close or error of the Twilio connection calls
    [close()] on the provider socket again, without code or reason and
    without a look at its state; none of them closes the Twilio socket. *)
Theorem lenient_closes_on_every_trigger (evs : list Event)
    (l : Lenient.Session) (k : nat) :
  Lenient.elevenLabsWs l = Some k ->
  forallb lenient_trigger evs = true ->
  actions (snd (Lenient.run reencode_other evs l))
  = replicate (length evs) (ElevenLabsCloseCall k JUndefined JUndefined).
Proof.
  revert l. induction evs as [|ev evs IH]; intros l Hk Ht; [reflexivity|].
  cbn [forallb] in Ht. apply andb_true_iff in Ht as [Ht1 Ht2].
  destruct (lenient_trigger_step ev l k Ht1 Hk) as [E1 E2].
  simpl. destruct (Lenient.step reencode_other ev l) as [l1 e1].
  cbn [fst snd] in *. specialize (IH l1 E1 Ht2).
  destruct (Lenient.run reencode_other evs l1) as [l2 e2]. cbn [fst snd] in *.
  unfold actions in *. rewrite keep_app, E2, IH. reflexivity.
Qed.

End CoverFacts.

(** ** More scenarios, run *)

Section CoverScenarios.

Local Open Scope list_scope.

Lemma ping_answered_with_pong_witness :
  Defensive.onElevenLabsMessage
    (Some (JObj [("type", JStr "ping");
                 ("ping_event", JObj [("event_id", JNum 7)])]))
    active_session
  = (active_session, [ElevenLabsSend 0 (pong_frame (JNum 7))]).
Proof.
  exact (proj1 (ping_answered_with_pong active_session active_lenient 0
                  (JObj [("type", JStr "ping");
                         ("ping_event", JObj [("event_id", JNum 7)])])
                  eq_refl eq_refl eq_refl eq_refl eq_refl)).
Defined.

Lemma protocol_error_closes_1003_witness :
  actions (snd (Defensive.step no_runtime
                  (TwilioMessage (Some (JObj [("event", JStr "start")])))
                  active_session))
  = [ElevenLabsCloseCall 0 (JNum 1000) (JStr "Closing normally");
     TwilioCloseCall (JNum 1003) (JStr "Missing streamSid")].
Proof.
  exact (proj1 (proj2 (proj2 (proj2 (proj2
    (protocol_error_closes_1003 no_runtime active_session active_lenient
       (Some (JObj [("event", JStr "start")])) "Missing streamSid"
       eq_refl))))) eq_refl).
Defined.

Lemma unknown_frames_ignored_witness :
  Defensive.step no_runtime
    (TwilioMessage (Some (JObj [("event", JStr "mark")]))) active_session
  = (active_session, [Console c_log "[Twilio] Received unhandled event:"])
  /\ Defensive.handleElevenLabsMessage (JStr "SID1") (Some 0)
       (JObj [("type", JStr "agent_response")])
     = ([], Returned).
Proof.
  pose proof (unknown_frames_ignored no_runtime active_session active_lenient
                (JObj [("event", JStr "mark")])
                (JObj [("type", JStr "agent_response")])) as [H1 H2].
  split; [exact (proj1 (proj1 (H1 eq_refl) eq_refl))
         | exact (proj1 (H2 eq_refl))].
Defined.

Lemma stop_closes_both_legs_witness :
  actions (snd (Defensive.step no_runtime
                  (TwilioMessage (Some stop_message)) active_session))
  = [ElevenLabsCloseCall 0 (JNum 1000) (JStr "Closing normally");
     TwilioCloseCall (JNum 1000) (JStr "Stop event received")].
Proof.
  exact (proj1 (proj2
    (stop_closes_both_legs no_runtime active_session active_lenient
       stop_message eq_refl)) eq_refl).
Defined.

Lemma leg_failures_close_the_other_leg_witness :
  actions (snd (Defensive.step no_runtime TwilioError active_session))
  = [ElevenLabsCloseCall 0 (JNum 1000) (JStr "Closing normally")].
Proof.
  exact (proj1 (proj2
    (leg_failures_close_the_other_leg no_runtime active_session
       (JNum 1001) (JStr "") eq_refl))).
Defined.

(** A frame whose [event] has no text, and a [start] frame whose
    identifier has none: the console line of the handler throws. *)
Example frames_without_a_text :
  let odd := JObj [("toString", JNum 1)] in
  actions (snd (Defensive.step no_runtime
                  (TwilioMessage (Some (JObj [("event", odd)])))
                  active_session))
  = [ElevenLabsCloseCall 0 (JNum 1000) (JStr "Closing normally");
     TwilioCloseCall (JNum 1003) (JStr "Message processing error")]
  /\ Defensive.step no_runtime (TwilioMessage (Some (start_message odd)))
       Defensive.initial
     = (Defensive.mkSession odd None true CLOSING [] [] 0,
        [Console c_error "[Twilio] Error processing message:";
         Console c_log "[Server] Closing connection with code";
         TwilioCloseCall (JNum 1003) (JStr "Message processing error")])
  /\ Lenient.step no_runtime (TwilioMessage (Some (start_message odd)))
       Lenient.initial
     = (Lenient.mkSession odd None OPEN [] 0,
        [Console c_error "[Twilio] Error processing message:"]).
Proof. vm_compute. repeat split; reflexivity. Qed.

Lemma lenient_never_propagates_witness :
  actions (snd (Lenient.step no_runtime
                  (ElevenLabsClosed 0 (JNum 1011) (JStr "")) active_lenient))
  = [].
Proof.
  exact (proj1 (lenient_never_propagates no_runtime
                  (ElevenLabsClosed 0 (JNum 1011) (JStr "")) active_lenient)
           0 (JNum 1011) (JStr "") (or_introl eq_refl)).
Defined.

Lemma twilio_frames_carry_stream_id_witness :
  truthy (Defensive.streamSid
            (fst (Defensive.run no_runtime call_setup Defensive.initial)))
  = true.
Proof.
  refine (proj1 (proj2
    (twilio_frames_carry_stream_id no_runtime call_setup
       (ElevenLabsMessage 0 (Some interruption_message))
       (clear_frame (JStr "SID1")) _))).
  vm_compute. apply list_elem_of_here.
Defined.

Lemma streamSid_is_last_start_witness :
  truthy (Defensive.streamSid
            (fst (Defensive.run no_runtime call_stopped active_session)))
  = true.
Proof.
  exact (proj2 (streamSid_is_last_start no_runtime call_stopped active_session)
           eq_refl).
Defined.

Lemma only_newest_socket_is_closed_witness :
  1 = length (Defensive.sockets
                (fst (Defensive.run no_runtime call_setup Defensive.initial))).
Proof.
  refine (proj1
    (only_newest_socket_is_closed no_runtime call_setup
       (TwilioMessage (Some stop_message)) 0 (JNum 1000)
       (JStr "Closing normally") _)).
  vm_compute. apply list_elem_of_further, list_elem_of_here.
Defined.


Lemma start_failure_closes_1011_witness :
  let s := fst (Defensive.run no_runtime
                  [TwilioMessage (Some (start_message (JStr "SID1")))]
                  Defensive.initial) in
  actions (snd (Defensive.step no_runtime (SignedUrlSettled signed_ok false) s))
  = [TwilioCloseCall (JNum 1011)
       (JStr "Failed to initialize ElevenLabs connection")].
Proof.
  intros s.
  exact (proj2 (proj2 (proj2 (proj1
    (start_failure_closes_1011 no_runtime s signed_ok false 0 eq_refl)
    (or_intror eq_refl)))) eq_refl).
Defined.


Lemma media_frame_is_harmless_witness :
  fst (Defensive.step no_runtime
         (TwilioMessage (Some (media_message (JNum 5)))) active_session)
  = active_session.
Proof.
  exact (proj1 (media_frame_is_harmless no_runtime active_session
                  active_lenient (media_message (JNum 5)) eq_refl)).
Defined.

Lemma lenient_closes_on_every_trigger_witness :
  actions (snd (Lenient.run no_runtime
                  [TwilioMessage (Some stop_message); TwilioError;
                   TwilioClosed (JNum 1000) (JStr "")] active_lenient))
  = [ElevenLabsCloseCall 0 JUndefined JUndefined;
     ElevenLabsCloseCall 0 JUndefined JUndefined;
     ElevenLabsCloseCall 0 JUndefined JUndefined].
Proof.
  exact (lenient_closes_on_every_trigger no_runtime
           [TwilioMessage (Some stop_message); TwilioError;
            TwilioClosed (JNum 1000) (JStr "")] active_lenient 0
           eq_refl eq_refl).
Defined.

End CoverScenarios.
